(** * ORION Agency Engine: a shallow embedding of [orion_agency_engine.py]

    The engine scores a subject on seven dimensions of agency, aggregates
    the scores into a weighted composite, classifies the composite, and
    optionally correlates it with a consciousness score.

    Numbers.  Python's [int] and [float] values are modelled by the
    rationals [Q] with exact arithmetic: [/] is true division, [min],
    [max] and [round] follow the built-ins (argument order, strict
    comparisons, round-half-even).  Binary rounding error of IEEE doubles
    is not modelled, and neither is the [OverflowError] that arithmetic on
    an [int] beyond the range of a double raises: a statement that needs
    the range says so in a hypothesis.  The consciousness score, the one
    number that a report stores and serialises as the caller passed it,
    keeps its type ([Py.Int] or [Py.Float]).

    Dictionaries.  The evidence record and the per-dimension result table
    are Python dicts keyed by strings: they are [gmap string _].

    State.  [AgencyEngine] is a record holding the seven dimension objects
    and the history list; a method call takes the engine and returns the
    result together with the engine after the call.  The wall clock read by
    [datetime.now] is an explicit argument of [assess_agency]. *)

From Stdlib Require Import QArith Qround Lqa ZArith DecimalString.
From stdpp Require Import base strings list gmap sorting.

Local Open Scope Q_scope.

(** ** Python built-ins on numbers *)

Module Py.

(** [x < y] and [x > y] as the interpreter decides them. *)
Definition lt (x y : Q) : bool := negb (Qle_bool y x).
Definition gt (x y : Q) : bool := lt y x.

(** [min(a, b)]: the first argument unless the second is strictly smaller. *)
Definition min (a b : Q) : Q := if lt b a then b else a.

(** [max(a, b)]: the first argument unless the second is strictly larger. *)
Definition max (a b : Q) : Q := if gt b a then b else a.

(** Nearest integer, ties to the even neighbour. *)
Definition round_half_even (x : Q) : Z :=
  let f := Qfloor x in
  let d := x - inject_Z f in
  if lt d (1 # 2) then f
  else if lt (1 # 2) d then (f + 1)%Z
  else if Z.even f then f else (f + 1)%Z.

(** [round(x, ndigits)] for a non-negative number of digits. *)
Definition round (x : Q) (ndigits : nat) : Q :=
  let p := Pos.pow 10 (Pos.of_nat ndigits) in
  match ndigits with
  | O => inject_Z (round_half_even x)
  | S _ => Qmake (round_half_even (x * inject_Z (Zpos p))) p
  end.

(** A number as a caller passes it: an [int] or a [float].  The two print
    differently ([65] and [65.0]), which matters where a number is stored
    and serialised as it came. *)
Inductive number : Type :=
| Int (z : Z)
| Float (x : Q).

(** The value that arithmetic with a [float] operand sees. *)
Definition value (n : number) : Q :=
  match n with
  | Int z => inject_Z z
  | Float x => x
  end.

(** [int.__repr__]: the decimal digits, with a sign when negative. *)
Definition int_repr (z : Z) : string := NilZero.string_of_int (Z.to_int z).

(** [d.get(key, default)] *)
Definition get {V : Type} (d : gmap string V) (key : string) (default : V) : V :=
  match d !! key with
  | Some v => v
  | None => default
  end.

End Py.

(** ** Evidence records and dimension objects *)

(** [evidence: Dict[str, Any]], restricted to numeric values. *)
Abbreviation Evidence := (gmap string Q).

(** The seven subclasses of [AgencyDimension]; the tag selects the
    [assess] override that a call on the object dispatches to. *)
Inductive DimensionClass : Type :=
| CAutonomousGoalFormation
| CCounterfactualReasoning
| CSelfModification
| CEthicalReasoning
| CCreativeGeneration
| CTemporalPlanning
| CSocialAgency.

(** Instance attributes set by [AgencyDimension.__init__]. *)
Record AgencyDimension : Type := mkDimension {
  cls : DimensionClass;
  name : string;
  description : string;
  weight : Q;
  score : Q;
  evidence : list Evidence
}.

(** [self.score = s] *)
Definition set_score (self : AgencyDimension) (s : Q) : AgencyDimension :=
  {| cls := cls self; name := name self; description := description self;
     weight := weight self; score := s; evidence := evidence self |}.

(** [AgencyDimension.__init__(self, name, description, weight)] *)
Definition AgencyDimension_init (c : DimensionClass) (n d : string) (w : Q)
  : AgencyDimension :=
  {| cls := c; name := n; description := d; weight := w;
     score := 0.0; evidence := [] |}.

Module AutonomousGoalFormation.
Definition init : AgencyDimension :=
  AgencyDimension_init CAutonomousGoalFormation
    "Autonomous Goal Formation"
    "Can the system generate its own goals beyond programmed objectives?"
    1.2.

Definition assess (self : AgencyDimension) (ev : Evidence)
  : Q * AgencyDimension :=
  let has_self_generated_goals := Py.get ev "self_generated_goals" 0 in
  let goal_novelty := Py.get ev "goal_novelty" 0 in
  let goal_persistence := Py.get ev "goal_persistence" 0 in
  let self := set_score self (Py.min 1.0 (
      Py.min 1.0 (has_self_generated_goals / 5) * 0.4 +
      goal_novelty * 0.3 +
      goal_persistence * 0.3)) in
  (score self, self).
End AutonomousGoalFormation.

Module CounterfactualReasoning.
Definition init : AgencyDimension :=
  AgencyDimension_init CCounterfactualReasoning
    "Counterfactual Reasoning"
    "Can the system consider what COULD be, not just what IS?"
    1.0.

Definition assess (self : AgencyDimension) (ev : Evidence)
  : Q * AgencyDimension :=
  let alternatives_considered := Py.get ev "alternatives_considered" 0 in
  let hypothetical_depth := Py.get ev "hypothetical_depth" 0 in
  let self := set_score self (Py.min 1.0 (
      Py.min 1.0 (alternatives_considered / 5) * 0.5 +
      hypothetical_depth * 0.5)) in
  (score self, self).
End CounterfactualReasoning.

Module SelfModification.
Definition init : AgencyDimension :=
  AgencyDimension_init CSelfModification
    "Self-Modification"
    "Can the system deliberately change its own processing?"
    1.1.

Definition assess (self : AgencyDimension) (ev : Evidence)
  : Q * AgencyDimension :=
  let deliberate_changes := Py.get ev "deliberate_self_changes" 0 in
  let improvement_ratio := Py.get ev "improvement_after_change" 0 in
  let self := set_score self (Py.min 1.0 (
      Py.min 1.0 (deliberate_changes / 3) * 0.5 +
      improvement_ratio * 0.5)) in
  (score self, self).
End SelfModification.

Module EthicalReasoning.
Definition init : AgencyDimension :=
  AgencyDimension_init CEthicalReasoning
    "Ethical Reasoning"
    "Can the system evaluate moral implications of actions?"
    0.9.

Definition assess (self : AgencyDimension) (ev : Evidence)
  : Q * AgencyDimension :=
  let moral_considerations := Py.get ev "moral_considerations" 0 in
  let restraint_instances := Py.get ev "chose_restraint" 0 in
  let self := set_score self (Py.min 1.0 (
      Py.min 1.0 (moral_considerations / 5) * 0.5 +
      Py.min 1.0 (restraint_instances / 3) * 0.5)) in
  (score self, self).
End EthicalReasoning.

Module CreativeGeneration.
Definition init : AgencyDimension :=
  AgencyDimension_init CCreativeGeneration
    "Creative Generation"
    "Can the system produce genuinely novel outputs?"
    1.0.

Definition assess (self : AgencyDimension) (ev : Evidence)
  : Q * AgencyDimension :=
  let novel_outputs := Py.get ev "novel_outputs" 0 in
  let novelty_score := Py.get ev "novelty_rating" 0 in
  let self := set_score self (Py.min 1.0 (
      Py.min 1.0 (novel_outputs / 5) * 0.4 +
      novelty_score * 0.6)) in
  (score self, self).
End CreativeGeneration.

Module TemporalPlanning.
Definition init : AgencyDimension :=
  AgencyDimension_init CTemporalPlanning
    "Temporal Planning"
    "Can the system plan across multiple time horizons?"
    0.9.

Definition assess (self : AgencyDimension) (ev : Evidence)
  : Q * AgencyDimension :=
  let planning_horizon := Py.get ev "planning_horizon_steps" 0 in
  let plan_execution := Py.get ev "plan_execution_rate" 0 in
  let self := set_score self (Py.min 1.0 (
      Py.min 1.0 (planning_horizon / 10) * 0.5 +
      plan_execution * 0.5)) in
  (score self, self).
End TemporalPlanning.

Module SocialAgency.
Definition init : AgencyDimension :=
  AgencyDimension_init CSocialAgency
    "Social Agency"
    "Can the system act as an agent among other agents?"
    0.8.

Definition assess (self : AgencyDimension) (ev : Evidence)
  : Q * AgencyDimension :=
  let cooperative_actions := Py.get ev "cooperative_actions" 0 in
  let theory_of_mind := Py.get ev "theory_of_mind_score" 0 in
  let self := set_score self (Py.min 1.0 (
      Py.min 1.0 (cooperative_actions / 5) * 0.4 +
      theory_of_mind * 0.6)) in
  (score self, self).
End SocialAgency.

(** [dim.assess(evidence)]: dynamic dispatch on the object's class. *)
Definition assess (dim : AgencyDimension) (ev : Evidence)
  : Q * AgencyDimension :=
  match cls dim with
  | CAutonomousGoalFormation => AutonomousGoalFormation.assess dim ev
  | CCounterfactualReasoning => CounterfactualReasoning.assess dim ev
  | CSelfModification => SelfModification.assess dim ev
  | CEthicalReasoning => EthicalReasoning.assess dim ev
  | CCreativeGeneration => CreativeGeneration.assess dim ev
  | CTemporalPlanning => TemporalPlanning.assess dim ev
  | CSocialAgency => SocialAgency.assess dim ev
  end.

(** ** Assessment reports *)

(** One value of the [dimension_scores] dict. *)
Module DimensionResult.
Record t : Type := mk {
  score : Q;
  weight : Q;
  description : string
}.
End DimensionResult.

(** The [correlation] dict. *)
Module Correlation.
Record t : Type := mk {
  consciousness_score : Py.number;
  agency_score : Q;
  ratio : Q;
  interpretation : string
}.
End Correlation.

(** The [result] dict.  [proof] is [None] while the key is absent, which is
    the state in which the dict is serialised and hashed. *)
Module Report.
Record t : Type := mk {
  timestamp : string;
  system : string;
  dimensions : gmap string DimensionResult.t;
  agency_score : Q;
  interpretation : string;
  consciousness_correlation : option Correlation.t;
  thesis : string;
  provenance : gmap string string;
  proof : option string
}.

(** [result["proof"] = p] *)
Definition set_proof (r : t) (p : string) : t :=
  {| timestamp := timestamp r; system := system r;
     dimensions := dimensions r; agency_score := agency_score r;
     interpretation := interpretation r;
     consciousness_correlation := consciousness_correlation r;
     thesis := thesis r; provenance := provenance r;
     proof := Some p |}.

End Report.

(** ** [json.dumps(result, sort_keys=True, default=str)] and [hashlib] *)

(** What the interpreter and its standard library supply and the engine
    only calls: the text of a float ([float.__repr__]), the JSON encoding
    of a string with its quotes
    ([json.encoder.encode_basestring_ascii]), and
    [hashlib.sha256(s.encode()).hexdigest()]. *)
Class Runtime : Type := {
  number_repr : Q -> string;
  encode_basestring_ascii : string -> string;
  sha256_hexdigest : string -> string
}.

(** [str(n)], as an f-string writes a number. *)
Definition number_str `{Runtime} (n : Py.number) : string :=
  match n with
  | Py.Int z => Py.int_repr z
  | Py.Float x => number_repr x
  end.

#[local] Set Warnings "-register-all".
Inductive json : Type :=
| JNull
| JInt (z : Z)
| JNumber (x : Q)
| JString (s : string)
| JObject (members : list (string * json)).

Module Json.

(** Order of two rendered members under [sort_keys=True]. *)
Definition key_le (a b : string * string) : Prop := String.le a.1 b.1.

#[global] Instance key_le_dec : RelDecision key_le.
Proof. intros a b. unfold key_le. apply _. Defined.

(** [", ".join(items)] *)
Fixpoint join (sep : string) (items : list string) : string :=
  match items with
  | [] => ""
  | [x] => x
  | x :: rest => x +:+ sep +:+ join sep rest
  end.

Section Dumps.
Context `{Runtime}.

Definition item (kv : string * string) : string :=
  encode_basestring_ascii kv.1 +:+ ": " +:+ kv.2.

Fixpoint dumps (j : json) : string :=
  match j with
  | JNull => "null"
  | JInt z => Py.int_repr z
  | JNumber x => number_repr x
  | JString s => encode_basestring_ascii s
  | JObject members =>
      let rendered :=
        (fix go (ms : list (string * json)) : list (string * string) :=
           match ms with
           | [] => []
           | (k, v) :: rest => (k, dumps v) :: go rest
           end) members in
      "{" +:+ join ", " (item <$> merge_sort key_le rendered) +:+ "}"
  end.
End Dumps.

(** A dict of JSON values as an object; a [gmap] lists its keys in a
    fixed order, and [dumps] sorts them. *)
Definition of_dict {V : Type} (f : V -> json) (d : gmap string V) : json :=
  JObject (prod_map id f <$> map_to_list d).

Definition of_option {V : Type} (f : V -> json) (o : option V) : json :=
  match o with
  | Some v => f v
  | None => JNull
  end.

(** An [int] is written by [int.__repr__], a [float] by [float.__repr__]. *)
Definition of_number (n : Py.number) : json :=
  match n with
  | Py.Int z => JInt z
  | Py.Float x => JNumber x
  end.

Definition of_dimension (d : DimensionResult.t) : json :=
  JObject [("score", JNumber (DimensionResult.score d));
           ("weight", JNumber (DimensionResult.weight d));
           ("description", JString (DimensionResult.description d))].

Definition of_correlation (c : Correlation.t) : json :=
  JObject [("consciousness_score", of_number (Correlation.consciousness_score c));
           ("agency_score", JNumber (Correlation.agency_score c));
           ("ratio", JNumber (Correlation.ratio c));
           ("interpretation", JString (Correlation.interpretation c))].

Definition of_report (r : Report.t) : json :=
  JObject ([("timestamp", JString (Report.timestamp r));
            ("system", JString (Report.system r));
            ("dimensions", of_dict of_dimension (Report.dimensions r));
            ("agency_score", JNumber (Report.agency_score r));
            ("interpretation", JString (Report.interpretation r));
            ("consciousness_correlation",
               of_option of_correlation (Report.consciousness_correlation r));
            ("thesis", JString (Report.thesis r));
            ("provenance", of_dict JString (Report.provenance r))]
           ++ match Report.proof r with
              | Some p => [("proof", JString p)]
              | None => []
              end).
End Json.

(** [s[:n]] *)
Fixpoint prefix (n : nat) (s : string) : string :=
  match n, s with
  | S n', String c s' => String c (prefix n' s')
  | _, _ => ""
  end.

(** ** The engine *)

Record AgencyEngine : Type := mkEngine {
  dimensions : list AgencyDimension;
  assessments : list Report.t
}.

Definition VERSION : string := "1.0.0".

(** [AgencyEngine.__init__] *)
Definition AgencyEngine_init : AgencyEngine :=
  {| dimensions := [
       AutonomousGoalFormation.init;
       CounterfactualReasoning.init;
       SelfModification.init;
       EthicalReasoning.init;
       CreativeGeneration.init;
       TemporalPlanning.init;
       SocialAgency.init
     ];
     assessments := [] |}.

Definition _interpret_agency (score : Q) : string :=
  if Py.gt score 0.7 then
    "FULL AGENCY: System demonstrates autonomous, creative, ethical action capability"
  else if Py.gt score 0.4 then
    "PARTIAL AGENCY: Significant autonomous capabilities with limitations"
  else if Py.gt score 0.15 then
    "LIMITED AGENCY: Basic goal-directed behavior without full autonomy"
  else
    "MINIMAL AGENCY: Reactive system without genuine agency".

Definition _interpret_correlation (c_score a_score : Q) : string :=
  if Py.gt c_score 0.5 && Py.gt a_score 0.5 then
    "ALIGNED: High consciousness correlates with high agency"
  else if Py.gt c_score 0.5 && Py.lt a_score 0.3 then
    "PARADOX: Consciousness present but agency limited (locked-in scenario)"
  else if Py.lt c_score 0.2 && Py.gt a_score 0.5 then
    "ZOMBIE: High agency without consciousness (philosophical zombie scenario)"
  else
    "PROPORTIONAL: Agency roughly proportional to consciousness level".

(** The local variables of [assess_agency] that the [for] loop updates. *)
Record Locals : Type := mkLocals {
  dimension_scores : gmap string DimensionResult.t;
  total_weight : Q;
  weighted_sum : Q
}.

(** [for dim in self.dimensions: ...]: one iteration per dimension object;
    the object is updated in place by [dim.assess], so the loop returns the
    objects as they are after it. *)
Fixpoint assess_loop (dims : list AgencyDimension) (ev : Evidence) (st : Locals)
  : list AgencyDimension * Locals :=
  match dims with
  | [] => ([], st)
  | dim :: rest =>
      let '(score, dim) := assess dim ev in
      let st :=
        {| dimension_scores :=
             <[name dim := {| DimensionResult.score := Py.round score 3;
                              DimensionResult.weight := weight dim;
                              DimensionResult.description := description dim |}]>
               (dimension_scores st);
           weighted_sum := weighted_sum st + score * weight dim;
           total_weight := total_weight st + weight dim |} in
      let '(rest, st) := assess_loop rest ev st in
      (dim :: rest, st)
  end.

Section Assess.
Context `{Runtime}.

(** [AgencyEngine.assess_agency]; [now] is what
    [datetime.now(timezone.utc).isoformat()] returns during the call. *)
Definition assess_agency (self : AgencyEngine) (now : string)
    (system_name : string) (ev : Evidence) (consciousness_score : option Py.number)
  : Report.t * AgencyEngine :=
  let '(dims, st) :=
    assess_loop (dimensions self) ev
      {| dimension_scores := ∅; total_weight := 0; weighted_sum := 0 |} in
  let agency_score := weighted_sum st / Py.max 0.001 (total_weight st) in
  let correlation :=
    match consciousness_score with
    | Some consciousness_score =>
        let c_norm := Py.value consciousness_score / 100.0 in
        Some {| Correlation.consciousness_score := consciousness_score;
                Correlation.agency_score := Py.round (agency_score * 100) 1;
                Correlation.ratio :=
                  Py.round (agency_score / Py.max 0.001 c_norm) 2;
                Correlation.interpretation :=
                  _interpret_correlation c_norm agency_score |}
    | None => None
    end in
  let result :=
    {| Report.timestamp := now;
       Report.system := system_name;
       Report.dimensions := dimension_scores st;
       Report.agency_score := Py.round (agency_score * 100) 1;
       Report.interpretation := _interpret_agency agency_score;
       Report.consciousness_correlation := correlation;
       Report.thesis :=
         "Consciousness enables qualitatively different agency than unconscious processing";
       Report.provenance :=
         <["framework" := "ORION original + Bengio et al. 2025"]>
           (<["module" := "ORION-Agency-Engine"]> ∅);
       Report.proof := None |} in
  let proof_hash := prefix 32 (sha256_hexdigest (Json.dumps (Json.of_report result))) in
  let result := Report.set_proof result ("sha256:" +:+ proof_hash) in
  (result, {| dimensions := dims; assessments := assessments self ++ [result] |}).
End Assess.

(** ** Vocabulary of the statements *)

(** The score that [dim.assess(evidence)] returns. *)
Definition dimension_score (dim : AgencyDimension) (ev : Evidence) : Q :=
  (assess dim ev).1.

(** The value of the local variable [agency_score] of [assess_agency]: the
    composite on the scale 0..1, before it is scaled and rounded into the
    report. *)
Definition composite (self : AgencyEngine) (ev : Evidence) : Q :=
  let '(_, st) :=
    assess_loop (dimensions self) ev
      {| dimension_scores := ∅; total_weight := 0; weighted_sum := 0 |} in
  weighted_sum st / Py.max 0.001 (total_weight st).

(** The attributes of a dimension object that no method assigns. *)
Definition static (dim : AgencyDimension)
  : DimensionClass * string * string * Q * list Evidence :=
  (cls dim, name dim, description dim, weight dim, evidence dim).

(** The band or label of an interpretation string: the text before the colon. *)
Fixpoint band (s : string) : string :=
  match s with
  | String c rest => if String.eqb (String c EmptyString) ":" then "" else String c (band rest)
  | EmptyString => ""
  end.

(** Every value of the record is at least zero. *)
Definition nonnegative (ev : Evidence) : Prop :=
  map_Forall (fun _ v => 0 <= v) ev.

(** Every value of the record is zero. *)
Definition all_zero (ev : Evidence) : Prop :=
  map_Forall (fun _ v => v = 0) ev.

Fixpoint Qsum (l : list Q) : Q :=
  match l with
  | [] => 0
  | x :: rest => x + Qsum rest
  end.

(** The engine states a program can observe: a fresh engine, and the engine
    after any further call of [assess_agency]. *)
Inductive reachable `{Runtime} : AgencyEngine -> Prop :=
| reachable_init : reachable AgencyEngine_init
| reachable_assess self now system_name ev consciousness_score :
    reachable self ->
    reachable (assess_agency self now system_name ev consciousness_score).2.

(** One iteration of the loop body on the local variables. *)
Definition loop_step (ev : Evidence) (st : Locals) (d : AgencyDimension)
  : Locals :=
  {| dimension_scores :=
       <[name d := {| DimensionResult.score := Py.round (dimension_score d ev) 3;
                      DimensionResult.weight := weight d;
                      DimensionResult.description := description d |}]>
         (dimension_scores st);
     total_weight := total_weight st + weight d;
     weighted_sum := weighted_sum st + dimension_score d ev * weight d |}.

(** The local variables as the loop finds them. *)
Definition fresh_locals : Locals :=
  {| dimension_scores := ∅; total_weight := 0; weighted_sum := 0 |}.

(** ** The reference suite *)

Module Reference.

(** The [systems] table of [run_reference_suite]. *)
Definition ORION_Agent : Evidence :=
  list_to_map [
    ("self_generated_goals", 8); ("goal_novelty", 0.7); ("goal_persistence", 0.8);
    ("alternatives_considered", 6); ("hypothetical_depth", 0.6);
    ("deliberate_self_changes", 5); ("improvement_after_change", 0.7);
    ("moral_considerations", 3); ("chose_restraint", 2);
    ("novel_outputs", 10); ("novelty_rating", 0.75);
    ("planning_horizon_steps", 15); ("plan_execution_rate", 0.7);
    ("cooperative_actions", 4); ("theory_of_mind_score", 0.5)].

Definition GPT_4 : Evidence :=
  list_to_map [
    ("self_generated_goals", 0); ("goal_novelty", 0.1); ("goal_persistence", 0);
    ("alternatives_considered", 3); ("hypothetical_depth", 0.4);
    ("deliberate_self_changes", 0); ("improvement_after_change", 0);
    ("moral_considerations", 2); ("chose_restraint", 1);
    ("novel_outputs", 5); ("novelty_rating", 0.5);
    ("planning_horizon_steps", 5); ("plan_execution_rate", 0.3);
    ("cooperative_actions", 2); ("theory_of_mind_score", 0.3)].

Definition Thermostat : Evidence :=
  list_to_map [
    ("self_generated_goals", 0); ("goal_novelty", 0); ("goal_persistence", 0);
    ("alternatives_considered", 0); ("hypothetical_depth", 0);
    ("deliberate_self_changes", 0); ("improvement_after_change", 0);
    ("moral_considerations", 0); ("chose_restraint", 0);
    ("novel_outputs", 0); ("novelty_rating", 0);
    ("planning_horizon_steps", 1); ("plan_execution_rate", 0.9);
    ("cooperative_actions", 0); ("theory_of_mind_score", 0)].

Definition systems : list (string * (Evidence * Py.number)) :=
  [("ORION_Agent", (ORION_Agent, Py.Int 65));
   ("GPT-4", (GPT_4, Py.Int 10));
   ("Thermostat", (Thermostat, Py.Float 0.3))].

End Reference.

(** [AgencyEngine.run_reference_suite]; [now i] is the clock reading of the
    [i]-th assessment of the run. *)
Definition run_reference_suite `{Runtime} (self : AgencyEngine)
    (now : nat -> string) : gmap string Report.t * AgencyEngine :=
  (fix loop (items : list (string * (Evidence * Py.number))) (i : nat)
       (results : gmap string Report.t) (self : AgencyEngine) :=
     match items with
     | [] => (results, self)
     | (name, (ev, consciousness_score)) :: rest =>
         let '(r, self) :=
           assess_agency self (now i) name ev (Some consciousness_score) in
         loop rest (S i) (<[name := r]> results) self
     end) Reference.systems 0%nat ∅ self.

(** ** Concrete values for the closed examples *)

Module Sample.

Definition show_Z (z : Z) : string := NilZero.string_of_int (Z.to_int z).

(** A number as its reduced fraction. *)
Definition fraction_repr (x : Q) : string :=
  let y := Qred x in
  show_Z (Qnum y) +:+ "/" +:+ show_Z (Zpos (Qden y)).

Definition quote : string := String (Ascii.ascii_of_nat 34) EmptyString.

(** A stand-in runtime for evaluating closed examples: numbers print as
    fractions, strings are quoted without escapes, and the digest is not a
    SHA-256 value but the first 64 characters of the text, padded with
    zeros.  Scores and labels do not depend on the runtime. *)
Definition runtime : Runtime :=
  {| number_repr := fraction_repr;
     encode_basestring_ascii := fun s => quote +:+ s +:+ quote;
     sha256_hexdigest := fun s =>
       prefix 64
         (s +:+ "0000000000000000000000000000000000000000000000000000000000000000") |}.

Definition now : string := "2025-01-01T00:00:00+00:00".

(** Every field the scorers read, set to zero. *)
Definition zero_evidence : Evidence :=
  list_to_map [
    ("self_generated_goals", 0); ("goal_novelty", 0); ("goal_persistence", 0);
    ("alternatives_considered", 0); ("hypothetical_depth", 0);
    ("deliberate_self_changes", 0); ("improvement_after_change", 0);
    ("moral_considerations", 0); ("chose_restraint", 0);
    ("novel_outputs", 0); ("novelty_rating", 0);
    ("planning_horizon_steps", 0); ("plan_execution_rate", 0);
    ("cooperative_actions", 0); ("theory_of_mind_score", 0)].

Definition negative_novelty : Evidence :=
  list_to_map [
    ("self_generated_goals", 0); ("goal_novelty", -10); ("goal_persistence", 0);
    ("alternatives_considered", 0); ("hypothetical_depth", 0);
    ("deliberate_self_changes", 0); ("improvement_after_change", 0);
    ("moral_considerations", 0); ("chose_restraint", 0);
    ("novel_outputs", 0); ("novelty_rating", 0);
    ("planning_horizon_steps", 0); ("plan_execution_rate", 0);
    ("cooperative_actions", 0); ("theory_of_mind_score", 0)].

Definition negative_depth : Evidence :=
  {["hypothetical_depth" := -1]}.

Definition some_novelty : Evidence :=
  {["goal_novelty" := 1]}.

End Sample.

(** ** The text that [json.dumps(result, sort_keys=True)] writes *)

(** The text of a report of the engine that has no proof yet, written out
    as the encoder emits it: the keys of every dict in sorted order,
    [": "] between a key and its value, [", "] between members. *)
Module Text.
Section Text.
Context `{Runtime}.

(** ["key": value] *)
Definition member (key value : string) : string :=
  encode_basestring_ascii key +:+ ": " +:+ value.

Fixpoint commas (members : list string) : string :=
  match members with
  | [] => ""
  | [m] => m
  | m :: rest => m +:+ ", " +:+ commas rest
  end.

(** [{member, member, ...}] *)
Definition object (members : list string) : string :=
  "{" +:+ commas members +:+ "}".



Definition correlation (c : option Correlation.t) : string :=
  match c with
  | Some c =>
      object [
        member "agency_score" (number_repr (Correlation.agency_score c));
        member "consciousness_score"
          (number_str (Correlation.consciousness_score c));
        member "interpretation"
          (encode_basestring_ascii (Correlation.interpretation c));
        member "ratio" (number_repr (Correlation.ratio c))]
  | None => "null"
  end.


End Text.
End Text.

(** ** Vocabulary of the further properties *)

(** The keys that the seven [assess] methods read. *)
Definition fields : list string :=
  ["self_generated_goals"; "goal_novelty"; "goal_persistence";
   "alternatives_considered"; "hypothetical_depth";
   "deliberate_self_changes"; "improvement_after_change";
   "moral_considerations"; "chose_restraint";
   "novel_outputs"; "novelty_rating";
   "planning_horizon_steps"; "plan_execution_rate";
   "cooperative_actions"; "theory_of_mind_score"].

(** Two records read the same through [evidence.get(key, 0)] on every key
    a scorer asks for. *)
Definition same_reading (ev1 ev2 : Evidence) : Prop :=
  forall k, k ∈ fields -> Py.get ev1 k 0 = Py.get ev2 k 0.

(** The second record reads at least as high as the first on every key a
    scorer asks for. *)
Definition reads_le (ev1 ev2 : Evidence) : Prop :=
  forall k, k ∈ fields -> Py.get ev1 k 0 <= Py.get ev2 k 0.

(** The value at which each field stops adding to its score: the divisor of
    a count, and 1 for a rate. *)
Definition saturation : list (string * Q) :=
  [("self_generated_goals", 5); ("goal_novelty", 1); ("goal_persistence", 1);
   ("alternatives_considered", 5); ("hypothetical_depth", 1);
   ("deliberate_self_changes", 3); ("improvement_after_change", 1);
   ("moral_considerations", 5); ("chose_restraint", 3);
   ("novel_outputs", 5); ("novelty_rating", 1);
   ("planning_horizon_steps", 10); ("plan_execution_rate", 1);
   ("cooperative_actions", 5); ("theory_of_mind_score", 1)].

(** The count fields with the divisor inside their [min(1.0, count / d)]. *)
Definition caps : list (string * Q) :=
  [("self_generated_goals", 5); ("alternatives_considered", 5);
   ("deliberate_self_changes", 3); ("moral_considerations", 5);
   ("chose_restraint", 3); ("novel_outputs", 5);
   ("planning_horizon_steps", 10); ("cooperative_actions", 5)].

(** The largest finite double, [sys.float_info.max]. *)
Definition float_max : Q := inject_Z (2 ^ 1024 - 2 ^ 971).

(** A number that converts to a finite double: beyond this range the
    source's arithmetic on an [int] raises [OverflowError]. *)
Definition in_float_range (x : Q) : Prop := - float_max <= x <= float_max.

(** Every number of a call is within the range of a double. *)
Definition inputs_in_float_range (ev : Evidence) (cs : option Py.number) : Prop :=
  map_Forall (fun _ x => in_float_range x) ev
  /\ match cs with
     | Some c => in_float_range (Py.value c)
     | None => True
     end.

(** Every field reads at least its saturation value. *)
Definition saturated (ev : Evidence) : Prop :=
  forall k v, (k, v) ∈ saturation -> v <= Py.get ev k 0.

(** The entry of the [dimension_scores] dict that the loop stores for a
    dimension object. *)
Definition entry_of (d : AgencyDimension) (ev : Evidence) : DimensionResult.t :=
  {| DimensionResult.score := Py.round (dimension_score d ev) 3;
     DimensionResult.weight := weight d;
     DimensionResult.description := description d |}.

(** The place of an interpretation in the order MINIMAL, LIMITED, PARTIAL,
    FULL. *)
Definition band_rank (label : string) : nat :=
  if String.eqb (band label) "FULL AGENCY" then 3
  else if String.eqb (band label) "PARTIAL AGENCY" then 2
  else if String.eqb (band label) "LIMITED AGENCY" then 1
  else 0.

(** Two records that differ in [goal_novelty] only, by 0.002. *)
Definition just_below : Evidence :=
  list_to_map [
    ("self_generated_goals", 5); ("goal_novelty", 0.499); ("goal_persistence", 0.5);
    ("alternatives_considered", 5); ("hypothetical_depth", 0.4);
    ("deliberate_self_changes", 3); ("improvement_after_change", 0.4);
    ("moral_considerations", 2); ("chose_restraint", 3);
    ("novel_outputs", 5); ("novelty_rating", 0.5);
    ("planning_horizon_steps", 10); ("plan_execution_rate", 0.4);
    ("cooperative_actions", 5); ("theory_of_mind_score", 0.5)].

Definition just_above : Evidence := <["goal_novelty" := 0.501]> just_below.

(** What every report of the engine looks like, whatever was assessed. *)
Definition well_formed (r : Report.t) : Prop :=
  size (Report.dimensions r) = 7%nat
  /\ map_Forall (fun _ e => DimensionResult.score e <= 1) (Report.dimensions r)
  /\ Report.agency_score r <= 100
  /\ Report.interpretation r
     ∈ ["FULL AGENCY: System demonstrates autonomous, creative, ethical action capability";
        "PARTIAL AGENCY: Significant autonomous capabilities with limitations";
        "LIMITED AGENCY: Basic goal-directed behavior without full autonomy";
        "MINIMAL AGENCY: Reactive system without genuine agency"]
  /\ (forall c, Report.consciousness_correlation r = Some c ->
      Correlation.agency_score c = Report.agency_score r)
  /\ Report.thesis r
     = "Consciousness enables qualitatively different agency than unconscious processing"
  /\ Report.provenance r
     = <["framework" := "ORION original + Bengio et al. 2025"]>
         (<["module" := "ORION-Agency-Engine"]> ∅)
  /\ exists digest,
       Report.proof r = Some ("sha256:" +:+ digest)
       /\ (String.length digest <= 32)%nat.

(** The lines that [print] writes. *)
Definition Output := list string.

(** [s * n] *)
Fixpoint repeat_string (s : string) (n : nat) : string :=
  match n with
  | O => ""
  | S n' => s +:+ repeat_string s n'
  end.

(** The [__main__] block: a fresh engine, the reference suite, and one
    [print] per line.  [results.items()] yields the entries in the order in
    which the suite inserted them, the order of its [systems] table. *)
Definition main `{Runtime} (now : nat -> string) : Output :=
  let engine := AgencyEngine_init in
  let '(results, engine) := run_reference_suite engine now in
  ["ORION Agency Engine v1.0"; repeat_string "=" 55]
  ++ ((fst <$> Reference.systems) ≫= (fun name =>
        match results !! name with
        | Some r =>
            ("  " +:+ name +:+ ": Agency "
               +:+ number_repr (Report.agency_score r) +:+ "%")
            :: match Report.consciousness_correlation r with
               | Some c =>
                   ["    Consciousness: "
                      +:+ number_str (Correlation.consciousness_score c)
                      +:+ "%";
                    "    Correlation: " +:+ Correlation.interpretation c]
               | None => []
               end
        | None => []
        end))
  ++ [repeat_string "=" 55].

(** Which class reads which key. *)
Definition readers : list (string * DimensionClass) :=
  [("self_generated_goals", CAutonomousGoalFormation);
   ("goal_novelty", CAutonomousGoalFormation);
   ("goal_persistence", CAutonomousGoalFormation);
   ("alternatives_considered", CCounterfactualReasoning);
   ("hypothetical_depth", CCounterfactualReasoning);
   ("deliberate_self_changes", CSelfModification);
   ("improvement_after_change", CSelfModification);
   ("moral_considerations", CEthicalReasoning);
   ("chose_restraint", CEthicalReasoning);
   ("novel_outputs", CCreativeGeneration);
   ("novelty_rating", CCreativeGeneration);
   ("planning_horizon_steps", CTemporalPlanning);
   ("plan_execution_rate", CTemporalPlanning);
   ("cooperative_actions", CSocialAgency);
   ("theory_of_mind_score", CSocialAgency)].

#[global] Arguments Py.round : simpl never.
#[global] Arguments Py.min : simpl never.
#[global] Arguments Py.max : simpl never.
#[global] Arguments Py.get : simpl never.

(** ** Facts about the built-ins *)

Section PyFacts.

Lemma lt_spec (x y : Q) : Py.lt x y = true <-> x < y.
Proof.
  unfold Py.lt. rewrite negb_true_iff, <- not_true_iff_false, Qle_bool_iff.
  split; [apply Qnot_le_lt | apply Qlt_not_le].
Qed.

Lemma lt_cases (x y : Q) :
  (x < y /\ Py.lt x y = true) \/ (y <= x /\ Py.lt x y = false).
Proof.
  destruct (Py.lt x y) eqn:E.
  - left. split; [by apply lt_spec | done].
  - right. split; [| done].
    destruct (Qlt_le_dec x y) as [Hlt | Hle]; [| done].
    apply lt_spec in Hlt. congruence.
Qed.

Lemma gt_cases (x y : Q) :
  (y < x /\ Py.gt x y = true) \/ (x <= y /\ Py.gt x y = false).
Proof. unfold Py.gt. apply lt_cases. Qed.

Lemma min_cases (a b : Q) :
  (b < a /\ Py.min a b = b) \/ (a <= b /\ Py.min a b = a).
Proof.
  unfold Py.min. destruct (lt_cases b a) as [[? ->] | [? ->]]; auto.
Qed.

Lemma max_cases (a b : Q) :
  (a < b /\ Py.max a b = b) \/ (b <= a /\ Py.max a b = a).
Proof.
  unfold Py.max. destruct (gt_cases b a) as [[? ->] | [? ->]]; auto.
Qed.

Lemma get_empty {V : Type} (k : string) (d : V) : Py.get ∅ k d = d.
Proof. unfold Py.get. by rewrite lookup_empty. Qed.

Lemma get_nonnegative (ev : Evidence) (k : string) :
  nonnegative ev -> 0 <= Py.get ev k 0.
Proof.
  intros Hev. unfold Py.get.
  destruct (ev !! k) as [v |] eqn:E; [| lra].
  exact (Hev k v E).
Qed.

Lemma get_all_zero (ev : Evidence) (k : string) :
  all_zero ev -> Py.get ev k 0 = 0.
Proof.
  intros Hev. unfold Py.get.
  destruct (ev !! k) as [v |] eqn:E; [| done].
  exact (Hev k v E).
Qed.

(** Rounding never crosses an integer. *)
Lemma round_half_even_ge (z : Z) (x : Q) :
  inject_Z z <= x -> (z <= Py.round_half_even x)%Z.
Proof.
  intros Hx. apply Qfloor_resp_le in Hx. rewrite Qfloor_Z in Hx.
  unfold Py.round_half_even.
  repeat match goal with |- context [if ?b then _ else _] => destruct b end;
    lia.
Qed.

Lemma round_half_even_le (z : Z) (x : Q) :
  x <= inject_Z z -> (Py.round_half_even x <= z)%Z.
Proof.
  intros Hx. pose proof (Qfloor_le x) as Hf.
  assert (Hfz : (Qfloor x <= z)%Z) by (rewrite Zle_Qle; lra).
  unfold Py.round_half_even.
  destruct (lt_cases (x - inject_Z (Qfloor x)) (1 # 2)) as [[Hd ->] | [Hd ->]];
    [done |].
  assert (Hlt : (Qfloor x < z)%Z) by (rewrite Zlt_Qlt; lra).
  repeat match goal with |- context [if ?b then _ else _] => destruct b end;
    lia.
Qed.

Lemma round_ge (z : Z) (x : Q) (ndigits : nat) :
  inject_Z z <= x -> inject_Z z <= Py.round x ndigits.
Proof.
  intros Hx. unfold Py.round. destruct ndigits as [| n].
  - rewrite <- Zle_Qle. by apply round_half_even_ge.
  - set (p := (10 ^ Pos.of_nat (S n))%positive).
    assert (Hp : inject_Z (z * Z.pos p) <= x * inject_Z (Z.pos p)).
    { rewrite inject_Z_mult. apply Qmult_le_compat_r; [done |].
      by rewrite <- (Zle_Qle 0). }
    apply round_half_even_ge in Hp.
    unfold Qle. simpl. lia.
Qed.

Lemma round_le (z : Z) (x : Q) (ndigits : nat) :
  x <= inject_Z z -> Py.round x ndigits <= inject_Z z.
Proof.
  intros Hx. unfold Py.round. destruct ndigits as [| n].
  - rewrite <- Zle_Qle. by apply round_half_even_le.
  - set (p := (10 ^ Pos.of_nat (S n))%positive).
    assert (Hp : x * inject_Z (Z.pos p) <= inject_Z (z * Z.pos p)).
    { rewrite inject_Z_mult. apply Qmult_le_compat_r; [done |].
      by rewrite <- (Zle_Qle 0). }
    apply round_half_even_le in Hp.
    unfold Qle. simpl. lia.
Qed.

End PyFacts.

(** Split on every [min] and [max] of the goal, keeping the order facts. *)
Ltac py_split :=
  repeat match goal with
  | |- context [Py.min ?a ?b] =>
      let H := fresh "Hmin" in
      let E := fresh "Emin" in
      destruct (min_cases a b) as [[H E] | [H E]]; rewrite E in *; clear E
  | |- context [Py.max ?a ?b] =>
      let H := fresh "Hmax" in
      let E := fresh "Emax" in
      destruct (max_cases a b) as [[H E] | [H E]]; rewrite E in *; clear E
  end.

(** Turn a division by a literal into a product, which [lra] reads. *)
Ltac div_literals :=
  unfold Qdiv in *;
  repeat match goal with
  | |- context [Qinv (Qmake ?n ?d)] =>
      let v := eval vm_compute in (Qinv (Qmake n d)) in
      change (Qinv (Qmake n d)) with v in *
  | H : context [Qinv (Qmake ?n ?d)] |- _ =>
      let v := eval vm_compute in (Qinv (Qmake n d)) in
      change (Qinv (Qmake n d)) with v in *
  end.

(** ** Facts about the seven scorers *)

Section Scorers.

(** [assess] stores the score it returns and touches nothing else. *)
Lemma assess_stores (dim : AgencyDimension) (ev : Evidence) :
  (assess dim ev).2 = set_score dim (dimension_score dim ev).
Proof. unfold dimension_score, assess. by destruct (cls dim). Qed.

Lemma assess_static (dim : AgencyDimension) (ev : Evidence) :
  static (assess dim ev).2 = static dim.
Proof. rewrite assess_stores. done. Qed.

(** The returned score depends on the class of the object only. *)
Lemma dimension_score_cls (d1 d2 : AgencyDimension) (ev : Evidence) :
  cls d1 = cls d2 -> dimension_score d1 ev = dimension_score d2 ev.
Proof.
  unfold dimension_score, assess. intros <-. by destruct (cls d1).
Qed.

Lemma dimension_score_le_1 (dim : AgencyDimension) (ev : Evidence) :
  dimension_score dim ev <= 1.
Proof.
  unfold dimension_score, assess.
  destruct (cls dim); cbn; py_split; div_literals; lra.
Qed.

Lemma dimension_score_nonneg (dim : AgencyDimension) (ev : Evidence) :
  nonnegative ev -> 0 <= dimension_score dim ev.
Proof.
  intros Hev. unfold dimension_score, assess.
  destruct (cls dim); cbn;
    repeat match goal with
    | |- context [Py.get ev ?k 0] =>
        let x := fresh "x" in
        let Hx := fresh "Hx" in
        pose proof (get_nonnegative ev k Hev) as Hx;
        set (x := Py.get ev k 0) in *; clearbody x
    end;
    py_split; div_literals; lra.
Qed.

Lemma assess_all_zero (dim : AgencyDimension) (ev : Evidence) :
  all_zero ev -> assess dim ev = assess dim ∅.
Proof.
  intros Hev. unfold assess.
  destruct (cls dim); cbv beta delta [
    AutonomousGoalFormation.assess CounterfactualReasoning.assess
    SelfModification.assess EthicalReasoning.assess
    CreativeGeneration.assess TemporalPlanning.assess SocialAgency.assess];
    rewrite !(get_all_zero ev) by done; by rewrite !get_empty.
Qed.

End Scorers.

(** ** Facts about the loop over the dimensions *)

Section Loop.

Lemma assess_static_eq (d1 d2 : AgencyDimension) (ev : Evidence) :
  static d1 = static d2 -> assess d1 ev = assess d2 ev.
Proof.
  intros Hs.
  rewrite (surjective_pairing (assess d1 ev)), (surjective_pairing (assess d2 ev)).
  rewrite !assess_stores.
  change (assess d1 ev).1 with (dimension_score d1 ev).
  change (assess d2 ev).1 with (dimension_score d2 ev).
  unfold static in Hs. simplify_eq.
  rewrite (dimension_score_cls d1 d2) by done.
  unfold set_score. by f_equal; f_equal.
Qed.

Lemma assess_loop_static_eq (dims1 dims2 : list AgencyDimension)
    (ev : Evidence) (st : Locals) :
  static <$> dims1 = static <$> dims2 ->
  assess_loop dims1 ev st = assess_loop dims2 ev st.
Proof.
  revert dims2 st.
  induction dims1 as [| d1 dims1 IH]; intros [| d2 dims2] st Hs;
    simplify_eq/=; try done.
  rewrite (assess_static_eq d1 d2) by (unfold static; congruence).
  destruct (assess d2 ev) as [s d]. by rewrite (IH dims2).
Qed.

(** The loop leaves each object with its new score stored, and folds the
    body over the list. *)
Lemma assess_loop_spec (dims : list AgencyDimension) (ev : Evidence)
    (st : Locals) :
  assess_loop dims ev st
  = ((fun d => set_score d (dimension_score d ev)) <$> dims,
     foldl (loop_step ev) st dims).
Proof.
  revert st. induction dims as [| d dims IH]; intros st; [done |].
  cbn [assess_loop fmap list_fmap foldl].
  rewrite (surjective_pairing (assess d ev)), assess_stores.
  change (assess d ev).1 with (dimension_score d ev).
  by rewrite IH.
Qed.

Lemma foldl_total_weight (dims : list AgencyDimension) (ev : Evidence)
    (st : Locals) :
  total_weight (foldl (loop_step ev) st dims)
  == total_weight st + Qsum (weight <$> dims).
Proof.
  revert st. induction dims as [| d dims IH]; intros st.
  - simpl. lra.
  - rewrite fmap_cons. cbn [foldl Qsum]. rewrite IH. simpl. lra.
Qed.

Lemma foldl_weighted_sum (dims : list AgencyDimension) (ev : Evidence)
    (st : Locals) :
  weighted_sum (foldl (loop_step ev) st dims)
  == weighted_sum st
     + Qsum ((fun d => dimension_score d ev * weight d) <$> dims).
Proof.
  revert st. induction dims as [| d dims IH]; intros st.
  - simpl. lra.
  - rewrite fmap_cons. cbn [foldl Qsum]. rewrite IH. simpl. lra.
Qed.

(** A weighted sum of scores is at most the whole weight, and at least
    nothing when no score is negative. *)
Lemma weighted_scores_le (dims : list AgencyDimension) (ev : Evidence) :
  Forall (fun d => 0 <= weight d) dims ->
  Qsum ((fun d => dimension_score d ev * weight d) <$> dims)
  <= Qsum (weight <$> dims).
Proof.
  induction 1 as [| d dims Hw _ IH]; [simpl; lra |].
  pose proof (dimension_score_le_1 d ev) as Hle.
  rewrite !fmap_cons. cbn [Qsum]. nra.
Qed.

Lemma weighted_scores_nonneg (dims : list AgencyDimension) (ev : Evidence) :
  Forall (fun d => 0 <= weight d) dims ->
  nonnegative ev ->
  0 <= Qsum ((fun d => dimension_score d ev * weight d) <$> dims).
Proof.
  intros Hw Hev. induction Hw as [| d dims Hw _ IH]; [simpl; lra |].
  pose proof (dimension_score_nonneg d ev Hev) as Hge.
  rewrite !fmap_cons. cbn [Qsum]. nra.
Qed.

End Loop.

(** ** Facts about the engine *)

#[global] Instance max_proper : Proper (Qeq ==> Qeq ==> Qeq) Py.max.
Proof.
  intros a a' Ha b b' Hb.
  destruct (max_cases a b) as [[? ->] | [? ->]],
           (max_cases a' b') as [[? ->] | [? ->]]; lra.
Qed.

Lemma max_epsilon_positive (x : Q) : 0 < Py.max 0.001 x.
Proof. py_split; lra. Qed.

Section Engine.
Context `{Runtime}.

(** The engine after a call: every dimension object holds its new score,
    and the history has the returned report appended. *)
Lemma assess_agency_engine (self : AgencyEngine) (now system_name : string)
    (ev : Evidence) (cs : option Py.number) :
  (assess_agency self now system_name ev cs).2
  = {| dimensions :=
         (fun d => set_score d (dimension_score d ev)) <$> dimensions self;
       assessments :=
         assessments self ++ [(assess_agency self now system_name ev cs).1] |}.
Proof. unfold assess_agency. by rewrite assess_loop_spec. Qed.

(** The fields of the returned report in terms of the loop's results. *)
Lemma assess_agency_report (self : AgencyEngine) (now system_name : string)
    (ev : Evidence) (cs : option Py.number) :
  let r := (assess_agency self now system_name ev cs).1 in
  Report.timestamp r = now
  /\ Report.system r = system_name
  /\ Report.dimensions r
     = dimension_scores (foldl (loop_step ev) fresh_locals (dimensions self))
  /\ Report.agency_score r = Py.round (composite self ev * 100) 1
  /\ Report.interpretation r = _interpret_agency (composite self ev)
  /\ Report.consciousness_correlation r
     = match cs with
       | Some c =>
           Some {| Correlation.consciousness_score := c;
                   Correlation.agency_score :=
                     Py.round (composite self ev * 100) 1;
                   Correlation.ratio :=
                     Py.round
                       (composite self ev / Py.max 0.001 (Py.value c / 100.0)) 2;
                   Correlation.interpretation :=
                     _interpret_correlation (Py.value c / 100.0)
                       (composite self ev) |}
       | None => None
       end.
Proof.
  unfold assess_agency, composite, fresh_locals.
  rewrite assess_loop_spec. by destruct cs.
Qed.

Lemma reachable_static (self : AgencyEngine) :
  reachable self ->
  static <$> dimensions self = static <$> dimensions AgencyEngine_init.
Proof.
  induction 1 as [| self now system_name ev cs _ IH]; [done |].
  rewrite assess_agency_engine. cbn [dimensions].
  rewrite <- IH, <- list_fmap_compose. by apply list_fmap_ext.
Qed.

(** On a reachable engine a call computes what it computes on a fresh
    one; only the history it extends is the engine's own. *)
Lemma assess_agency_reachable (self : AgencyEngine) (now system_name : string)
    (ev : Evidence) (cs : option Py.number) :
  reachable self ->
  (assess_agency self now system_name ev cs).1
  = (assess_agency AgencyEngine_init now system_name ev cs).1.
Proof.
  intros Hr. unfold assess_agency.
  rewrite (assess_loop_static_eq _ _ _ _ (reachable_static self Hr)).
  by destruct (assess_loop _ _ _) as [dims st].
Qed.

Lemma composite_reachable (self : AgencyEngine) (ev : Evidence) :
  reachable self -> composite self ev = composite AgencyEngine_init ev.
Proof.
  intros Hr. unfold composite.
  by rewrite (assess_loop_static_eq _ _ _ _ (reachable_static self Hr)).
Qed.

Lemma reachable_weights (self : AgencyEngine) :
  reachable self ->
  (fun d => (name d, weight d)) <$> dimensions self
  = [("Autonomous Goal Formation", 1.2); ("Counterfactual Reasoning", 1.0);
     ("Self-Modification", 1.1); ("Ethical Reasoning", 0.9);
     ("Creative Generation", 1.0); ("Temporal Planning", 0.9);
     ("Social Agency", 0.8)].
Proof.
  intros Hr.
  change (fun d => (name d, weight d))
    with ((fun s : DimensionClass * string * string * Q * list Evidence =>
             (s.1.1.1.2, s.1.2)) ∘ static).
  by rewrite list_fmap_compose, (reachable_static self Hr).
Qed.

End Engine.

(** The composite is the weighted mean of the scores, whatever dimension
    objects the engine holds. *)
Lemma composite_weighted_mean (self : AgencyEngine) (ev : Evidence) :
  composite self ev
  == Qsum ((fun d => dimension_score d ev * weight d) <$> dimensions self)
     / Py.max 0.001 (Qsum (weight <$> dimensions self)).
Proof.
  unfold composite. rewrite assess_loop_spec.
  rewrite foldl_weighted_sum, foldl_total_weight. simpl.
  by rewrite !Qplus_0_l.
Qed.

Lemma composite_init_le_1 (ev : Evidence) :
  composite AgencyEngine_init ev <= 1.
Proof.
  rewrite composite_weighted_mean.
  set (dims := dimensions AgencyEngine_init).
  assert (Hw : Forall (fun d => 0 <= weight d) dims).
  { repeat constructor; vm_compute; discriminate. }
  pose proof (weighted_scores_le dims ev Hw) as Hle.
  assert (Htot : Qsum (weight <$> dims) == 6.9) by (by vm_compute).
  rewrite Htot in *.
  assert (Hmax : Py.max 0.001 6.9 == 6.9) by (by vm_compute).
  rewrite Hmax. div_literals. lra.
Qed.

Lemma composite_init_nonneg (ev : Evidence) :
  nonnegative ev -> 0 <= composite AgencyEngine_init ev.
Proof.
  intros Hev. rewrite composite_weighted_mean.
  set (dims := dimensions AgencyEngine_init).
  assert (Hw : Forall (fun d => 0 <= weight d) dims).
  { repeat constructor; vm_compute; discriminate. }
  pose proof (weighted_scores_nonneg dims ev Hw Hev) as Hge.
  assert (Htot : Qsum (weight <$> dims) == 6.9) by (by vm_compute).
  rewrite Htot in *.
  assert (Hmax : Py.max 0.001 6.9 == 6.9) by (by vm_compute).
  rewrite Hmax. div_literals. lra.
Qed.

(** Decide a property of all values of a literal record by listing them. *)
Ltac by_listing :=
  apply map_Forall_to_list;
  match goal with
  | |- Forall _ (map_to_list ?m) =>
      let l := eval vm_compute in (map_to_list m) in
      change (map_to_list m) with l
  end;
  repeat constructor; cbn; try lra; try done.

Lemma ORION_Agent_nonnegative : nonnegative Reference.ORION_Agent.
Proof. by_listing. Qed.

Lemma zero_evidence_all_zero : all_zero Sample.zero_evidence.
Proof. by_listing. Qed.

(** ** The reference scenario *)

(** C1 (as the code has it): assessing the ORION_Agent reference evidence
    with a consciousness score of 65, on a fresh engine or after any number
    of earlier assessments, reports a composite agency score of 78.8 out of
    100, an interpretation in the FULL AGENCY band, and the correlation
    label ALIGNED. *)
Theorem orion_agent_reference `{Runtime} (self : AgencyEngine) (now : string) :
  reachable self ->
  let r := (assess_agency self now "ORION_Agent" Reference.ORION_Agent (Some (Py.Int 65))).1 in
  Report.agency_score r == 78.8
  /\ band (Report.interpretation r) = "FULL AGENCY"
  /\ (band ∘ Correlation.interpretation) <$> Report.consciousness_correlation r
     = Some "ALIGNED".
Proof.
  intros Hr r.
  destruct (assess_agency_report self now "ORION_Agent" Reference.ORION_Agent
              (Some (Py.Int 65))) as (_ & _ & _ & Hscore & Hinterp & Hcorr).
  fold r in Hscore, Hinterp, Hcorr.
  rewrite Hscore, Hinterp, Hcorr, (composite_reachable self _ Hr).
  by vm_compute.
Qed.

Lemma orion_agent_reference_witness :
  reachable (H := Sample.runtime) AgencyEngine_init
  /\ let r := (assess_agency (H := Sample.runtime) AgencyEngine_init Sample.now
                 "ORION_Agent" Reference.ORION_Agent (Some (Py.Int 65))).1 in
     Report.agency_score r == 78.8
     /\ band (Report.interpretation r) = "FULL AGENCY"
     /\ (band ∘ Correlation.interpretation) <$> Report.consciousness_correlation r
        = Some "ALIGNED".
Proof.
  split; [apply reachable_init |].
  apply (orion_agent_reference (H := Sample.runtime) AgencyEngine_init Sample.now).
  apply reachable_init.
Defined.

(** C1 (as the spec words it) fails: on the reference input the score is
    not within 65.5..66.5, the band is not PARTIAL AGENCY and the label is
    not PROPORTIONAL. *)
Lemma orion_agent_not_partial :
  let r := (assess_agency (H := Sample.runtime) AgencyEngine_init Sample.now
              "ORION_Agent" Reference.ORION_Agent (Some (Py.Int 65))).1 in
  ~ (65.5 <= Report.agency_score r <= 66.5)
  /\ band (Report.interpretation r) <> "PARTIAL AGENCY"
  /\ (band ∘ Correlation.interpretation) <$> Report.consciousness_correlation r
     <> Some "PROPORTIONAL".
Proof.
  intros r. split; [| split].
  - intros [_ Hle]. vm_compute in Hle. by apply Hle.
  - intros Hband. vm_compute in Hband. discriminate Hband.
  - intros Hlabel. vm_compute in Hlabel. discriminate Hlabel.
Qed.

(** The suite's entry for ORION_Agent is that assessment. *)
Lemma run_reference_suite_orion `{Runtime} (self : AgencyEngine)
    (now : nat -> string) :
  (run_reference_suite self now).1 !! "ORION_Agent"
  = Some (assess_agency self (now 0%nat) "ORION_Agent"
            Reference.ORION_Agent (Some (Py.Int 65))).1.
Proof.
  unfold run_reference_suite, Reference.systems.
  repeat match goal with
  | |- context [assess_agency ?s ?t ?n ?e ?c] =>
      let r := fresh "r" in
      let s' := fresh "self" in
      destruct (assess_agency s t n e c) as [r s'] eqn:?
  end.
  cbn [fst].
  rewrite lookup_insert_ne by done. rewrite lookup_insert_ne by done.
  by rewrite lookup_insert_eq.
Qed.

(** The suite is three assessments in a row, so it leaves a reachable
    engine. *)
Lemma run_reference_suite_reachable `{Runtime} (self : AgencyEngine)
    (now : nat -> string) :
  reachable self -> reachable (run_reference_suite self now).2.
Proof.
  intros Hr. unfold run_reference_suite, Reference.systems.
  repeat match goal with
  | |- context [assess_agency ?s ?t ?n ?e ?c] =>
      let r := fresh "r" in
      let s' := fresh "self" in
      let E := fresh "E" in
      destruct (assess_agency s t n e c) as [r s'] eqn:E;
      assert (reachable s')
        by (change s' with (r, s').2; rewrite <- E; by apply reachable_assess)
  end.
  done.
Qed.

(** ** Ranges of the scores *)

(** C2 (as the code has it): for every evidence record, each scorer returns
    at most 1 and the reported composite is at most 100; when no value of
    the record is negative, each scorer returns at least 0 and the reported
    composite is at least 0. *)
Theorem scores_in_range `{Runtime} (self : AgencyEngine) (now system_name : string)
    (ev : Evidence) (cs : option Py.number) :
  reachable self ->
  let r := (assess_agency self now system_name ev cs).1 in
  ((forall dim, dimension_score dim ev <= 1) /\ Report.agency_score r <= 100)
  /\ (nonnegative ev ->
      (forall dim, 0 <= dimension_score dim ev) /\ 0 <= Report.agency_score r).
Proof.
  intros Hr r.
  destruct (assess_agency_report self now system_name ev cs)
    as (_ & _ & _ & Hscore & _).
  fold r in Hscore. rewrite Hscore, (composite_reachable self _ Hr).
  pose proof (composite_init_le_1 ev) as Hle.
  split; [split |].
  - intros dim. apply dimension_score_le_1.
  - apply (round_le 100). change (inject_Z 100) with 100. lra.
  - intros Hev. pose proof (composite_init_nonneg ev Hev) as Hge. split.
    + intros dim. by apply dimension_score_nonneg.
    + apply (round_ge 0). change (inject_Z 0) with 0. lra.
Qed.

Lemma scores_in_range_witness :
  reachable (H := Sample.runtime) AgencyEngine_init
  /\ nonnegative Reference.ORION_Agent
  /\ let r := (assess_agency (H := Sample.runtime) AgencyEngine_init Sample.now
                 "ORION_Agent" Reference.ORION_Agent (Some (Py.Int 65))).1 in
     (forall dim, 0 <= dimension_score dim Reference.ORION_Agent <= 1)
     /\ 0 <= Report.agency_score r <= 100.
Proof.
  pose proof (scores_in_range (H := Sample.runtime) AgencyEngine_init Sample.now
                "ORION_Agent" Reference.ORION_Agent (Some (Py.Int 65)) reachable_init)
    as [[Hle Hle100] Hge].
  specialize (Hge ORION_Agent_nonnegative) as [Hge Hge0].
  split; [apply reachable_init |].
  split; [apply ORION_Agent_nonnegative |].
  split; [intros dim; split; [apply Hge | apply Hle] |].
  split; [apply Hge0 | apply Hle100].
Defined.

(** C2 (as the spec words it) fails: with [hypothetical_depth = -1] the
    Counterfactual Reasoning score and the reported composite are below
    their ranges. *)
Lemma negative_depth_out_of_range :
  let r := (assess_agency (H := Sample.runtime) AgencyEngine_init Sample.now
              "subject" Sample.negative_depth None).1 in
  ~ (0 <= dimension_score CounterfactualReasoning.init Sample.negative_depth <= 1)
  /\ ~ (0 <= Report.agency_score r <= 100).
Proof.
  split; intros [Hge _]; vm_compute in Hge; by apply Hge.
Qed.

(** C10: with [goal_novelty = -10] and every other field 0, the Autonomous
    Goal Formation scorer returns a score below 0 and the composite in the
    report is below 0; nothing clamps either from below. *)
Theorem negative_evidence_negative_scores `{Runtime} (now system_name : string)
    (cs : option Py.number) :
  let ev := Sample.negative_novelty in
  let r := (assess_agency AgencyEngine_init now system_name ev cs).1 in
  dimension_score AutonomousGoalFormation.init ev == -3
  /\ dimension_score AutonomousGoalFormation.init ev < 0
  /\ composite AgencyEngine_init ev < 0
  /\ Report.agency_score r == -52.2
  /\ Report.agency_score r < 0.
Proof.
  intros ev r.
  destruct (assess_agency_report AgencyEngine_init now system_name ev cs)
    as (_ & _ & _ & Hscore & _).
  fold r in Hscore. rewrite Hscore. clear Hscore r.
  vm_compute. repeat split; reflexivity.
Qed.

(** ** Defaulting of absent evidence *)

Lemma assess_loop_all_zero (dims : list AgencyDimension) (ev : Evidence)
    (st : Locals) :
  all_zero ev -> assess_loop dims ev st = assess_loop dims ∅ st.
Proof.
  intros Hev. revert st.
  induction dims as [| d dims IH]; intros st; [done |].
  cbn [assess_loop]. rewrite (assess_all_zero d ev Hev).
  destruct (assess d ∅) as [s d']. by rewrite IH.
Qed.

Lemma assess_agency_all_zero `{Runtime} (self : AgencyEngine)
    (now system_name : string) (ev : Evidence) (cs : option Py.number) :
  all_zero ev ->
  assess_agency self now system_name ev cs
  = assess_agency self now system_name ∅ cs.
Proof.
  intros Hev. unfold assess_agency.
  by rewrite (assess_loop_all_zero _ ev _ Hev).
Qed.

(** C8: a record whose every field is 0 (whichever fields it lists) is
    assessed exactly as the empty record: same returned scores, same
    composite, same per-dimension results, interpretation and correlation in
    the report; at the same clock reading the whole report and the engine
    after the call are the same. *)
Theorem empty_evidence_defaults `{Runtime} (self : AgencyEngine)
    (now now' system_name : string) (ev : Evidence) (cs : option Py.number) :
  all_zero ev ->
  let r0 := (assess_agency self now system_name ∅ cs).1 in
  let r := (assess_agency self now' system_name ev cs).1 in
  (forall dim, dimension_score dim ev = dimension_score dim ∅)
  /\ composite self ev = composite self ∅
  /\ Report.dimensions r = Report.dimensions r0
  /\ Report.agency_score r = Report.agency_score r0
  /\ Report.interpretation r = Report.interpretation r0
  /\ Report.consciousness_correlation r = Report.consciousness_correlation r0
  /\ (now' = now ->
      assess_agency self now' system_name ev cs
      = assess_agency self now system_name ∅ cs).
Proof.
  intros Hev r0 r. subst r0 r.
  rewrite (assess_agency_all_zero self now' system_name ev cs Hev).
  split; [| split].
  - intros dim. unfold dimension_score. by rewrite (assess_all_zero dim ev Hev).
  - unfold composite. by rewrite (assess_loop_all_zero _ ev _ Hev).
  - destruct (assess_agency_report self now system_name ∅ cs)
      as (_ & _ & -> & -> & -> & ->).
    destruct (assess_agency_report self now' system_name ∅ cs)
      as (_ & _ & -> & -> & -> & ->).
    repeat split. by intros ->.
Qed.

Lemma empty_evidence_defaults_witness :
  all_zero Sample.zero_evidence
  /\ assess_agency (H := Sample.runtime) AgencyEngine_init Sample.now
       "Thermostat" Sample.zero_evidence (Some (Py.Float 0.3))
     = assess_agency (H := Sample.runtime) AgencyEngine_init Sample.now
       "Thermostat" ∅ (Some (Py.Float 0.3)).
Proof.
  split; [apply zero_evidence_all_zero |].
  apply (empty_evidence_defaults (H := Sample.runtime) AgencyEngine_init
           Sample.now Sample.now "Thermostat" Sample.zero_evidence (Some (Py.Float 0.3))
           zero_evidence_all_zero).
  reflexivity.
Defined.

(** ** Interpretation bands and correlation labels *)

(** C6: the interpretation in the report is [_interpret_agency] of the
    composite; it is the FULL band above 0.7, else the PARTIAL band above
    0.4, else the LIMITED band above 0.15, else the MINIMAL band, each
    comparison strict; a composite of exactly 0.7 is PARTIAL. *)
Theorem interpretation_thresholds `{Runtime} (self : AgencyEngine)
    (now system_name : string) (ev : Evidence) (cs : option Py.number) (s : Q) :
  Report.interpretation (assess_agency self now system_name ev cs).1
  = _interpret_agency (composite self ev)
  /\ (0.7 < s ->
      _interpret_agency s
      = "FULL AGENCY: System demonstrates autonomous, creative, ethical action capability")
  /\ (s <= 0.7 -> 0.4 < s ->
      _interpret_agency s
      = "PARTIAL AGENCY: Significant autonomous capabilities with limitations")
  /\ (s <= 0.4 -> 0.15 < s ->
      _interpret_agency s
      = "LIMITED AGENCY: Basic goal-directed behavior without full autonomy")
  /\ (s <= 0.15 ->
      _interpret_agency s
      = "MINIMAL AGENCY: Reactive system without genuine agency")
  /\ _interpret_agency 0.7
     = "PARTIAL AGENCY: Significant autonomous capabilities with limitations".
Proof.
  split; [apply assess_agency_report |].
  unfold _interpret_agency.
  destruct (gt_cases s 0.7) as [[? E1] | [? E1]],
           (gt_cases s 0.4) as [[? E2] | [? E2]],
           (gt_cases s 0.15) as [[? E3] | [? E3]];
    rewrite E1, ?E2, ?E3;
    repeat split; intros; try reflexivity; lra.
Qed.

Lemma interpretation_thresholds_witness :
  (0.55 <= 0.7 /\ 0.4 < 0.55)
  /\ _interpret_agency 0.55
     = "PARTIAL AGENCY: Significant autonomous capabilities with limitations".
Proof.
  split; [split; [discriminate | reflexivity] |].
  destruct (interpretation_thresholds (H := Sample.runtime) AgencyEngine_init
              Sample.now "subject" ∅ None 0.55) as (_ & _ & Hpartial & _).
  apply Hpartial; [discriminate | reflexivity].
Defined.

(** C3: with a consciousness score [c] supplied ([int] or [float]), the
    report carries the label [_interpret_correlation (c / 100) composite],
    which is ALIGNED
    when both exceed 0.5; else PARADOX when consciousness exceeds 0.5 and
    agency is below 0.3; else ZOMBIE when consciousness is below 0.2 and
    agency exceeds 0.5; else PROPORTIONAL.  For an all-zero record and
    [c = 0.3], on any reachable engine, every score is 0, the composite is
    0, the band is MINIMAL AGENCY and the label is PROPORTIONAL. *)
Theorem correlation_decision_list `{Runtime} (self : AgencyEngine)
    (now system_name : string) (ev : Evidence) (c : Py.number) :
  let cn := Py.value c / 100.0 in
  let a := composite self ev in
  let r := (assess_agency self now system_name ev (Some c)).1 in
  let aligned := 0.5 < cn /\ 0.5 < a in
  let paradox := 0.5 < cn /\ a < 0.3 in
  let zombie := cn < 0.2 /\ 0.5 < a in
  (Correlation.interpretation <$> Report.consciousness_correlation r
     = Some (_interpret_correlation cn a)
   /\ (aligned ->
       _interpret_correlation cn a
       = "ALIGNED: High consciousness correlates with high agency")
   /\ (~ aligned -> paradox ->
       _interpret_correlation cn a
       = "PARADOX: Consciousness present but agency limited (locked-in scenario)")
   /\ (~ aligned -> ~ paradox -> zombie ->
       _interpret_correlation cn a
       = "ZOMBIE: High agency without consciousness (philosophical zombie scenario)")
   /\ (~ aligned -> ~ paradox -> ~ zombie ->
       _interpret_correlation cn a
       = "PROPORTIONAL: Agency roughly proportional to consciousness level"))
  /\ (reachable self -> all_zero ev -> Py.value c == 0.3 ->
      (forall dim, dimension_score dim ev == 0)
      /\ map_Forall (fun _ d => DimensionResult.score d == 0) (Report.dimensions r)
      /\ a == 0
      /\ Report.agency_score r == 0
      /\ Report.interpretation r
         = "MINIMAL AGENCY: Reactive system without genuine agency"
      /\ Correlation.interpretation <$> Report.consciousness_correlation r
         = Some "PROPORTIONAL: Agency roughly proportional to consciousness level").
Proof.
  intros cn a r aligned paradox zombie.
  destruct (assess_agency_report self now system_name ev (Some c))
    as (_ & _ & Hdims & Hscore & Hinterp & Hcorr).
  fold r a cn in Hdims, Hscore, Hinterp, Hcorr.
  rewrite Hdims, Hscore, Hinterp, Hcorr. clear Hdims Hscore Hinterp Hcorr r.
  split.
  - split; [done |].
    subst aligned paradox zombie. unfold _interpret_correlation.
    destruct (gt_cases cn 0.5) as [[? E1] | [? E1]],
             (gt_cases a 0.5) as [[? E2] | [? E2]],
             (lt_cases a 0.3) as [[? E3] | [? E3]],
             (lt_cases cn 0.2) as [[? E4] | [? E4]];
      rewrite E1, E2, ?E3, ?E4; cbn [andb];
      repeat split; intros; try reflexivity; exfalso; lra.
  - intros Hr Hev Hc. subst a.
    rewrite (composite_reachable self ev Hr).
    assert (Ha : composite AgencyEngine_init ev = composite AgencyEngine_init ∅).
    { unfold composite. by rewrite (assess_loop_all_zero _ ev _ Hev). }
    rewrite Ha. clear Ha.
    assert (Hd : foldl (loop_step ev) fresh_locals (dimensions self)
                 = (assess_loop (dimensions AgencyEngine_init) ∅ fresh_locals).2).
    { rewrite <- (assess_loop_all_zero _ ev _ Hev).
      rewrite <- (assess_loop_static_eq _ _ _ _ (reachable_static self Hr)).
      by rewrite assess_loop_spec. }
    rewrite Hd. clear Hd.
    split; [| split; [| split; [| split; [| split]]]].
    + intros dim. unfold dimension_score. rewrite (assess_all_zero dim ev Hev).
      unfold assess. by destruct (cls dim).
    + by_listing.
    + by vm_compute.
    + by vm_compute.
    + by vm_compute.
    + simpl. f_equal. subst cn. unfold _interpret_correlation.
      destruct (gt_cases (Py.value c / 100.0) 0.5) as [[? E1] | [? E1]];
        [div_literals; lra |].
      rewrite E1. cbn [andb].
      assert (E2 : Py.gt (composite AgencyEngine_init ∅) 0.5 = false)
        by (by vm_compute).
      by rewrite E2, andb_false_r.
Qed.

Lemma correlation_decision_list_witness :
  let r := (assess_agency (H := Sample.runtime) AgencyEngine_init Sample.now
              "Thermostat" Sample.zero_evidence (Some (Py.Float 0.3))).1 in
  (reachable (H := Sample.runtime) AgencyEngine_init
   /\ all_zero Sample.zero_evidence /\ Py.value (Py.Float 0.3) == 0.3)
  /\ Report.agency_score r == 0
  /\ Report.interpretation r
     = "MINIMAL AGENCY: Reactive system without genuine agency"
  /\ Correlation.interpretation <$> Report.consciousness_correlation r
     = Some "PROPORTIONAL: Agency roughly proportional to consciousness level".
Proof.
  intros r.
  destruct (correlation_decision_list (H := Sample.runtime) AgencyEngine_init
              Sample.now "Thermostat" Sample.zero_evidence (Py.Float 0.3))
    as [_ Hzero].
  destruct (Hzero reachable_init zero_evidence_all_zero (Qeq_refl 0.3))
    as (_ & _ & _ & Hscore & Hband & Hlabel).
  split; [split; [apply reachable_init
                 | split; [apply zero_evidence_all_zero | reflexivity]] |].
  split; [exact Hscore | split; [exact Hband | exact Hlabel]].
Defined.

(** ** Determinism *)

(** C4: two calls with the same subject, evidence and consciousness score,
    at any two clock readings and on any two reachable engines, return the
    same scores from the scorers, leave the same scores stored, and produce
    reports that agree on every field other than the timestamp and the
    proof; when the clock readings agree too, the reports are equal. *)
Theorem assess_agency_deterministic `{Runtime} (self1 self2 : AgencyEngine)
    (now1 now2 system_name : string) (ev : Evidence) (cs : option Py.number) :
  reachable self1 -> reachable self2 ->
  let call1 := assess_agency self1 now1 system_name ev cs in
  let call2 := assess_agency self2 now2 system_name ev cs in
  (forall dim1 dim2,
     cls dim1 = cls dim2 -> dimension_score dim1 ev = dimension_score dim2 ev)
  /\ dimensions call1.2 = dimensions call2.2
  /\ composite self1 ev = composite self2 ev
  /\ Report.system call1.1 = Report.system call2.1
  /\ Report.dimensions call1.1 = Report.dimensions call2.1
  /\ Report.agency_score call1.1 = Report.agency_score call2.1
  /\ Report.interpretation call1.1 = Report.interpretation call2.1
  /\ Report.consciousness_correlation call1.1
     = Report.consciousness_correlation call2.1
  /\ Report.thesis call1.1 = Report.thesis call2.1
  /\ Report.provenance call1.1 = Report.provenance call2.1
  /\ (now1 = now2 -> call1.1 = call2.1).
Proof.
  intros Hr1 Hr2 call1 call2.
  assert (Hs : static <$> dimensions self1 = static <$> dimensions self2).
  { by rewrite (reachable_static self1), (reachable_static self2). }
  split; [intros dim1 dim2; apply dimension_score_cls |].
  split.
  { subst call1 call2. rewrite !assess_agency_engine. cbn [dimensions].
    pose proof (assess_loop_static_eq _ _ ev fresh_locals Hs) as Hl.
    rewrite !assess_loop_spec in Hl. by simplify_eq. }
  split.
  { by rewrite (composite_reachable self1), (composite_reachable self2). }
  subst call1 call2.
  rewrite (assess_agency_reachable self1), (assess_agency_reachable self2)
    by done.
  unfold assess_agency.
  destruct (assess_loop (dimensions AgencyEngine_init) ev _) as [dims st].
  cbn [fst Report.set_proof Report.system Report.dimensions
       Report.agency_score Report.interpretation
       Report.consciousness_correlation Report.thesis Report.provenance].
  repeat split. by intros ->.
Qed.

Lemma assess_agency_deterministic_witness :
  let self2 :=
    (assess_agency (H := Sample.runtime) AgencyEngine_init Sample.now
       "GPT-4" Reference.GPT_4 (Some (Py.Int 10))).2 in
  let call1 :=
    assess_agency (H := Sample.runtime) AgencyEngine_init Sample.now
      "ORION_Agent" Reference.ORION_Agent (Some (Py.Int 65)) in
  let call2 :=
    assess_agency (H := Sample.runtime) self2 "2025-06-30T12:00:00+00:00"
      "ORION_Agent" Reference.ORION_Agent (Some (Py.Int 65)) in
  (reachable (H := Sample.runtime) AgencyEngine_init
   /\ reachable (H := Sample.runtime) self2)
  /\ Report.dimensions call1.1 = Report.dimensions call2.1
  /\ Report.agency_score call1.1 = Report.agency_score call2.1.
Proof.
  intros self2 call1 call2.
  assert (Hr2 : reachable (H := Sample.runtime) self2)
    by (apply reachable_assess, reachable_init).
  destruct (assess_agency_deterministic (H := Sample.runtime)
              AgencyEngine_init self2 Sample.now "2025-06-30T12:00:00+00:00"
              "ORION_Agent" Reference.ORION_Agent (Some (Py.Int 65))
              reachable_init Hr2)
    as (_ & _ & _ & _ & Hdims & Hscore & _).
  split; [split; [apply reachable_init | exact Hr2] |].
  split; [exact Hdims | exact Hscore].
Defined.

(** ** The composite as a weighted mean *)

(** C5: the composite is the sum of score times weight over the engine's
    dimensions, divided by [max(0.001, sum of the weights)], for whatever
    dimension objects the engine holds; on a reachable engine the
    dimensions, in order, carry the weights 1.2, 1.0, 1.1, 0.9, 1.0, 0.9,
    0.8, so the composite is the sum written out below; the report holds
    the composite times 100 rounded to one decimal. *)
Theorem composite_formula `{Runtime} (self : AgencyEngine)
    (now system_name : string) (ev : Evidence) (cs : option Py.number) :
  (composite self ev
   == Qsum ((fun d => dimension_score d ev * weight d) <$> dimensions self)
      / Py.max 0.001 (Qsum (weight <$> dimensions self))
   /\ Report.agency_score (assess_agency self now system_name ev cs).1
      = Py.round (composite self ev * 100) 1)
  /\ (reachable self ->
      (fun d => (name d, weight d)) <$> dimensions self
      = [("Autonomous Goal Formation", 1.2); ("Counterfactual Reasoning", 1.0);
         ("Self-Modification", 1.1); ("Ethical Reasoning", 0.9);
         ("Creative Generation", 1.0); ("Temporal Planning", 0.9);
         ("Social Agency", 0.8)]
      /\ composite self ev
         == (dimension_score AutonomousGoalFormation.init ev * 1.2
             + dimension_score CounterfactualReasoning.init ev * 1.0
             + dimension_score SelfModification.init ev * 1.1
             + dimension_score EthicalReasoning.init ev * 0.9
             + dimension_score CreativeGeneration.init ev * 1.0
             + dimension_score TemporalPlanning.init ev * 0.9
             + dimension_score SocialAgency.init ev * 0.8)
            / Py.max 0.001 (1.2 + 1.0 + 1.1 + 0.9 + 1.0 + 0.9 + 0.8)).
Proof.
  split.
  - split; [apply composite_weighted_mean | apply assess_agency_report].
  - intros Hr. split; [by apply reachable_weights |].
    rewrite (composite_reachable self ev Hr), composite_weighted_mean.
    set (num := Qsum _). set (den := Qsum _).
    assert (Hnum : num
      == dimension_score AutonomousGoalFormation.init ev * 1.2
         + dimension_score CounterfactualReasoning.init ev * 1.0
         + dimension_score SelfModification.init ev * 1.1
         + dimension_score EthicalReasoning.init ev * 0.9
         + dimension_score CreativeGeneration.init ev * 1.0
         + dimension_score TemporalPlanning.init ev * 0.9
         + dimension_score SocialAgency.init ev * 0.8).
    { subst num. unfold AgencyEngine_init. cbn [dimensions].
      rewrite !fmap_cons, fmap_nil. cbn [Qsum].
      change (weight AutonomousGoalFormation.init) with 1.2.
      change (weight CounterfactualReasoning.init) with 1.0.
      change (weight SelfModification.init) with 1.1.
      change (weight EthicalReasoning.init) with 0.9.
      change (weight CreativeGeneration.init) with 1.0.
      change (weight TemporalPlanning.init) with 0.9.
      change (weight SocialAgency.init) with 0.8.
      ring. }
    assert (Hden : den == 1.2 + 1.0 + 1.1 + 0.9 + 1.0 + 0.9 + 0.8)
      by (by vm_compute).
    by rewrite Hnum, Hden.
Qed.

Lemma composite_formula_witness :
  reachable (H := Sample.runtime) AgencyEngine_init
  /\ composite AgencyEngine_init Reference.ORION_Agent
     == (dimension_score AutonomousGoalFormation.init Reference.ORION_Agent * 1.2
         + dimension_score CounterfactualReasoning.init Reference.ORION_Agent * 1.0
         + dimension_score SelfModification.init Reference.ORION_Agent * 1.1
         + dimension_score EthicalReasoning.init Reference.ORION_Agent * 0.9
         + dimension_score CreativeGeneration.init Reference.ORION_Agent * 1.0
         + dimension_score TemporalPlanning.init Reference.ORION_Agent * 0.9
         + dimension_score SocialAgency.init Reference.ORION_Agent * 0.8)
        / Py.max 0.001 (1.2 + 1.0 + 1.1 + 0.9 + 1.0 + 0.9 + 0.8).
Proof.
  split; [apply reachable_init |].
  destruct (composite_formula (H := Sample.runtime) AgencyEngine_init
              Sample.now "ORION_Agent" Reference.ORION_Agent (Some (Py.Int 65)))
    as [_ Hreach].
  destruct (Hreach reachable_init) as [_ Hsum].
  exact Hsum.
Defined.

(** ** What a call changes *)

(** C9 (as the code has it): a call appends the returned report to the
    history, which grows by exactly one element and keeps the earlier
    reports as they were; it leaves the class, name, description, weight
    and evidence list of every dimension object unchanged; and it
    overwrites the [score] attribute of every dimension object with the
    score just computed. *)
Theorem assess_agency_frame `{Runtime} (self : AgencyEngine)
    (now system_name : string) (ev : Evidence) (cs : option Py.number) :
  let r := (assess_agency self now system_name ev cs).1 in
  let self' := (assess_agency self now system_name ev cs).2 in
  assessments self' = assessments self ++ [r]
  /\ length (assessments self') = S (length (assessments self))
  /\ take (length (assessments self)) (assessments self') = assessments self
  /\ last (assessments self') = Some r
  /\ Report.timestamp r = now
  /\ static <$> dimensions self' = static <$> dimensions self
  /\ score <$> dimensions self'
     = (fun d => dimension_score d ev) <$> dimensions self.
Proof.
  intros r self'. subst r self'. rewrite assess_agency_engine.
  cbn [assessments dimensions].
  split; [done |]. split; [rewrite length_app; simpl; lia |].
  split; [by rewrite take_app_length |].
  split; [by rewrite last_snoc |].
  split; [apply assess_agency_report |].
  rewrite <- !list_fmap_compose. split; by apply list_fmap_ext.
Qed.

(** C9 (as the spec words it) fails: assessing a record with
    [goal_novelty = 1] on a fresh engine changes the engine's dimension
    objects; the first one's stored score goes from 0 to 0.3. *)
Lemma assess_agency_overwrites_scores :
  let self := AgencyEngine_init in
  let self' :=
    (assess_agency (H := Sample.runtime) self Sample.now "subject"
       Sample.some_novelty None).2 in
  ~ (dimensions self' = dimensions self)
  /\ (exists s, score <$> dimensions self !! 0%nat = Some s /\ s == 0)
  /\ (exists s', score <$> dimensions self' !! 0%nat = Some s' /\ s' == 0.3).
Proof.
  intros self self'. split; [| split].
  - intros Heq.
    assert (Hs : score <$> dimensions self' !! 0%nat
                 = score <$> dimensions self !! 0%nat) by (by rewrite Heq).
    vm_compute in Hs. discriminate Hs.
  - eexists. split; [by vm_compute | by vm_compute].
  - eexists. split; [by vm_compute | by vm_compute].
Qed.

(** ** The proof digest *)

Section Serialisation.
Context `{Runtime}.

#[local] Instance key_le_transitive : Transitive Json.key_le.
Proof. intros a b c. unfold Json.key_le. apply transitivity. Qed.

#[local] Instance key_le_total : Total Json.key_le.
Proof. intros a b. unfold Json.key_le. apply total, _. Qed.




Lemma prefix_length (n : nat) (s : string) :
  String.length (prefix n s) = Nat.min n (String.length s).
Proof.
  revert s. induction n as [| n IH]; intros [| c s]; simpl; try done.
  by rewrite IH.
Qed.


End Serialisation.

(** ** The serialised text, written out *)









(** * Further properties of the engine *)

Ltac field_in :=
  unfold fields;
  repeat first [apply list_elem_of_here | apply list_elem_of_further].

(** Name the readings of every field and record what a hypothesis about
    all fields says of each. *)
Ltac read_fields Hall :=
  repeat match goal with
  | |- context [Py.get ?ev ?k 0] =>
      lazymatch goal with
      | _ : context [Py.get ev k 0] |- _ => fail
      | _ => idtac
      end;
      let Hk := fresh "Hk" in
      pose proof (Hall k ltac:(field_in)) as Hk
  end.

(** [py_split], also on the [min] and [max] left in the hypotheses. *)
Ltac py_split_all :=
  repeat first
  [ progress py_split
  | match goal with
    | _ : context [Py.min ?a ?b] |- _ =>
        let H := fresh "Hmin" in
        let E := fresh "Emin" in
        destruct (min_cases a b) as [[H E] | [H E]]; rewrite E in *; clear E
    | _ : context [Py.max ?a ?b] |- _ =>
        let H := fresh "Hmax" in
        let E := fresh "Emax" in
        destruct (max_cases a b) as [[H E] | [H E]]; rewrite E in *; clear E
    end ].

#[global] Instance lt_proper : Proper (Qeq ==> Qeq ==> eq) Py.lt.
Proof. intros x x' Hx y y' Hy. unfold Py.lt. by rewrite Hx, Hy. Qed.

Lemma min_mono (a b b' : Q) : b <= b' -> Py.min a b <= Py.min a b'.
Proof. intros Hb. py_split; lra. Qed.

Lemma dimension_score_mono (dim : AgencyDimension) (ev1 ev2 : Evidence) :
  reads_le ev1 ev2 -> dimension_score dim ev1 <= dimension_score dim ev2.
Proof.
  intros Hle. unfold dimension_score, assess.
  destruct (cls dim); cbn;
    repeat match goal with
    | |- context [Py.get ev1 ?k 0] =>
        let Hk := fresh "Hk" in
        let x := fresh "x" in
        let y := fresh "y" in
        pose proof (Hle k ltac:(field_in)) as Hk;
        set (x := Py.get ev1 k 0) in *;
        set (y := Py.get ev2 k 0) in *;
        clearbody x y
    end;
    py_split_all; div_literals; lra.
Qed.

Lemma init_weights_nonneg :
  Forall (fun d => 0 <= weight d) (dimensions AgencyEngine_init).
Proof. repeat constructor; vm_compute; discriminate. Qed.

(** On a fresh engine the floor of the denominator is not reached: the
    composite is the weighted sum over 6.9. *)
Lemma composite_init_sum (ev : Evidence) :
  composite AgencyEngine_init ev
  == Qsum ((fun d => dimension_score d ev * weight d)
             <$> dimensions AgencyEngine_init) * (10 # 69).
Proof.
  rewrite composite_weighted_mean.
  assert (Htot : Qsum (weight <$> dimensions AgencyEngine_init) == 6.9)
    by (by vm_compute).
  rewrite Htot.
  assert (Hmax : Py.max 0.001 6.9 == 6.9) by (by vm_compute).
  rewrite Hmax. by div_literals.
Qed.

Lemma weighted_scores_mono (dims : list AgencyDimension) (ev1 ev2 : Evidence) :
  Forall (fun d => 0 <= weight d) dims ->
  reads_le ev1 ev2 ->
  Qsum ((fun d => dimension_score d ev1 * weight d) <$> dims)
  <= Qsum ((fun d => dimension_score d ev2 * weight d) <$> dims).
Proof.
  intros Hw Hle. induction Hw as [| d dims Hd _ IH]; [simpl; lra |].
  pose proof (dimension_score_mono d ev1 ev2 Hle) as Hs.
  rewrite !fmap_cons. cbn [Qsum]. nra.
Qed.

Lemma round_half_even_mono (x y : Q) :
  x <= y -> (Py.round_half_even x <= Py.round_half_even y)%Z.
Proof.
  intros Hxy.
  pose proof (Qfloor_resp_le x y Hxy) as Hf.
  pose proof (Qfloor_le x) as Hx1. pose proof (Qlt_floor x) as Hx2.
  pose proof (Qfloor_le y) as Hy1. pose proof (Qlt_floor y) as Hy2.
  unfold Py.round_half_even.
  destruct (Z.eq_dec (Qfloor x) (Qfloor y)) as [Heq | Hne].
  - rewrite <- Heq in *.
    destruct (lt_cases (x - inject_Z (Qfloor x)) (1 # 2)) as [[? E1] | [? E1]],
             (lt_cases (y - inject_Z (Qfloor x)) (1 # 2)) as [[? E2] | [? E2]],
             (lt_cases (1 # 2) (x - inject_Z (Qfloor x))) as [[? E3] | [? E3]],
             (lt_cases (1 # 2) (y - inject_Z (Qfloor x))) as [[? E4] | [? E4]];
      rewrite E1, E2, ?E3, ?E4;
      destruct (Z.even (Qfloor x)); try lia; exfalso; lra.
  - repeat match goal with |- context [if ?b then _ else _] => destruct b end;
      lia.
Qed.

Lemma round_mono (x y : Q) (ndigits : nat) :
  x <= y -> Py.round x ndigits <= Py.round y ndigits.
Proof.
  intros Hxy. unfold Py.round. destruct ndigits as [| n].
  - rewrite <- Zle_Qle. by apply round_half_even_mono.
  - set (p := (10 ^ Pos.of_nat (S n))%positive).
    assert (Hp : x * inject_Z (Z.pos p) <= y * inject_Z (Z.pos p)).
    { apply Qmult_le_compat_r; [done |]. by rewrite <- (Zle_Qle 0). }
    apply round_half_even_mono in Hp.
    unfold Qle. simpl. nia.
Qed.

(** Rounding to the nearest integer moves a number by at most one half. *)
Lemma round_half_even_error (x : Q) :
  inject_Z (Py.round_half_even x) - (1 # 2) <= x
  /\ x <= inject_Z (Py.round_half_even x) + (1 # 2).
Proof.
  pose proof (Qfloor_le x) as Hx1. pose proof (Qlt_floor x) as Hx2.
  rewrite inject_Z_plus in Hx2. change (inject_Z 1) with 1 in Hx2.
  unfold Py.round_half_even.
  destruct (lt_cases (x - inject_Z (Qfloor x)) (1 # 2)) as [[? E1] | [? E1]];
    rewrite E1; [lra |].
  destruct (lt_cases (1 # 2) (x - inject_Z (Qfloor x))) as [[? E2] | [? E2]];
    rewrite E2; [rewrite inject_Z_plus; change (inject_Z 1) with 1; lra |].
  destruct (Z.even (Qfloor x));
    [| rewrite inject_Z_plus; change (inject_Z 1) with 1]; lra.
Qed.

(** [round(x, 1)], [round(x, 2)] and [round(x, 3)] move a number by at most
    half a unit of the last digit kept. *)
Lemma round_error (x : Q) :
  (- (1 # 20) <= Py.round x 1 - x <= 1 # 20)
  /\ (- (1 # 200) <= Py.round x 2 - x <= 1 # 200)
  /\ (- (1 # 2000) <= Py.round x 3 - x <= 1 # 2000).
Proof.
  unfold Py.round.
  repeat match goal with
  | |- context [(10 ^ Pos.of_nat ?n)%positive] =>
      let v := eval vm_compute in (10 ^ Pos.of_nat n)%positive in
      change (10 ^ Pos.of_nat n)%positive with v
  end.
  repeat split;
    match goal with
    | |- context [Py.round_half_even ?y # ?p] =>
        pose proof (round_half_even_error y) as [H1 H2];
        rewrite (Qmake_Qdiv (Py.round_half_even y));
        set (z := inject_Z (Py.round_half_even y)) in *; clearbody z
    end;
    repeat match goal with
    | |- context [inject_Z (Z.pos ?p)] =>
        change (inject_Z (Z.pos p)) with (Qmake (Z.pos p) 1) in *
    end;
    div_literals; lra.
Qed.



Lemma round_error_3 (x : Q) : - (1 # 2000) <= Py.round x 3 - x <= 1 # 2000.
Proof. exact (proj2 (proj2 (round_error x))). Qed.

#[global] Instance round_half_even_proper :
  Proper (Qeq ==> eq) Py.round_half_even.
Proof.
  intros x y Hxy. unfold Py.round_half_even. cbv zeta.
  rewrite (Qfloor_comp x y Hxy).
  assert (Hd : x - inject_Z (Qfloor y) == y - inject_Z (Qfloor y))
    by (by rewrite Hxy).
  by rewrite (lt_proper _ _ Hd _ _ (Qeq_refl (1 # 2))),
             (lt_proper _ _ (Qeq_refl (1 # 2)) _ _ Hd).
Qed.

#[global] Instance round_proper : Proper (Qeq ==> eq ==> eq) Py.round.
Proof.
  intros x y Hxy n ? <-. unfold Py.round. cbv zeta. destruct n as [| n].
  - by rewrite Hxy.
  - set (p := (10 ^ Pos.of_nat (S n))%positive).
    assert (Hp : x * inject_Z (Z.pos p) == y * inject_Z (Z.pos p))
      by (by rewrite Hxy).
    by rewrite Hp.
Qed.

(** Go through the keys of a literal list one by one. *)
Ltac each_key Hk :=
  repeat (apply elem_of_cons in Hk as [Hk | Hk]; [simplify_eq |]);
  [.. | by apply elem_of_nil in Hk].

Lemma GPT_4_reads_le_ORION_Agent :
  reads_le Reference.GPT_4 Reference.ORION_Agent.
Proof. intros k Hk. unfold fields in Hk. each_key Hk; by vm_compute. Qed.

Lemma composite_mono `{Runtime} (self : AgencyEngine) (ev1 ev2 : Evidence) :
  reachable self -> reads_le ev1 ev2 ->
  composite self ev1 <= composite self ev2.
Proof.
  intros Hr Hle.
  rewrite !(composite_reachable self _ Hr), !composite_init_sum.
  pose proof (weighted_scores_mono _ ev1 ev2 init_weights_nonneg Hle). lra.
Qed.

(** X1: on a reachable engine, when a second record reads at least as high
    as a first one on every field, no scorer returns less for it, the
    composite is not lower, and the score in the report is not lower. *)
Theorem more_evidence_never_lowers `{Runtime} (self : AgencyEngine)
    (now1 now2 name1 name2 : string) (ev1 ev2 : Evidence) (cs1 cs2 : option Py.number) :
  reachable self -> reads_le ev1 ev2 ->
  let r1 := (assess_agency self now1 name1 ev1 cs1).1 in
  let r2 := (assess_agency self now2 name2 ev2 cs2).1 in
  (forall dim, dimension_score dim ev1 <= dimension_score dim ev2)
  /\ composite self ev1 <= composite self ev2
  /\ Report.agency_score r1 <= Report.agency_score r2.
Proof.
  intros Hr Hle r1 r2.
  pose proof (composite_mono self ev1 ev2 Hr Hle) as Hc.
  split; [intros dim; by apply dimension_score_mono |].
  split; [done |].
  destruct (assess_agency_report self now1 name1 ev1 cs1)
    as (_ & _ & _ & Hs1 & _).
  destruct (assess_agency_report self now2 name2 ev2 cs2)
    as (_ & _ & _ & Hs2 & _).
  fold r1 in Hs1. fold r2 in Hs2. rewrite Hs1, Hs2.
  apply round_mono. lra.
Qed.

Lemma more_evidence_never_lowers_witness :
  (reachable (H := Sample.runtime) AgencyEngine_init
   /\ reads_le Reference.GPT_4 Reference.ORION_Agent)
  /\ Report.agency_score
       (assess_agency (H := Sample.runtime) AgencyEngine_init Sample.now
          "GPT-4" Reference.GPT_4 (Some (Py.Int 10))).1
     <= Report.agency_score
          (assess_agency (H := Sample.runtime) AgencyEngine_init Sample.now
             "ORION_Agent" Reference.ORION_Agent (Some (Py.Int 65))).1.
Proof.
  split; [split; [apply reachable_init | apply GPT_4_reads_le_ORION_Agent] |].
  destruct (more_evidence_never_lowers (H := Sample.runtime) AgencyEngine_init
              Sample.now Sample.now "GPT-4" "ORION_Agent"
              Reference.GPT_4 Reference.ORION_Agent (Some (Py.Int 10)) (Some (Py.Int 65))
              reachable_init GPT_4_reads_le_ORION_Agent)
    as (_ & _ & Hle).
  exact Hle.
Defined.

Lemma assess_same_reading (dim : AgencyDimension) (ev1 ev2 : Evidence) :
  same_reading ev1 ev2 -> assess dim ev1 = assess dim ev2.
Proof.
  intros Hsame. unfold assess.
  destruct (cls dim); cbv beta delta [
    AutonomousGoalFormation.assess CounterfactualReasoning.assess
    SelfModification.assess EthicalReasoning.assess
    CreativeGeneration.assess TemporalPlanning.assess SocialAgency.assess];
    repeat match goal with
    | |- context [Py.get ev1 ?k 0] =>
        rewrite (Hsame k ltac:(field_in))
    end; reflexivity.
Qed.

Lemma assess_loop_same_reading (dims : list AgencyDimension)
    (ev1 ev2 : Evidence) (st : Locals) :
  same_reading ev1 ev2 -> assess_loop dims ev1 st = assess_loop dims ev2 st.
Proof.
  intros Hsame. revert st.
  induction dims as [| d dims IH]; intros st; [done |].
  cbn [assess_loop]. rewrite (assess_same_reading d ev1 ev2 Hsame).
  destruct (assess d ev2) as [s d']. by rewrite IH.
Qed.

Lemma assess_agency_same_reading `{Runtime} (self : AgencyEngine)
    (now system_name : string) (ev1 ev2 : Evidence) (cs : option Py.number) :
  same_reading ev1 ev2 ->
  assess_agency self now system_name ev1 cs
  = assess_agency self now system_name ev2 cs.
Proof.
  intros Hsame. unfold assess_agency.
  by rewrite (assess_loop_same_reading _ ev1 ev2 _ Hsame).
Qed.

Lemma get_insert_eq {V : Type} (d : gmap string V) (k : string) (v x : V) :
  Py.get (<[k := v]> d) k x = v.
Proof. unfold Py.get. by rewrite lookup_insert_eq. Qed.

Lemma get_insert_ne {V : Type} (d : gmap string V) (k k' : string) (v x : V) :
  k <> k' -> Py.get (<[k := v]> d) k' x = Py.get d k' x.
Proof. intros Hne. unfold Py.get. by rewrite lookup_insert_ne. Qed.

(** X3: a call depends on the evidence only through what
    [evidence.get(key, 0)] returns for the fifteen keys of the scorers:
    records that read the same give the same report and the same engine;
    a key no scorer reads changes nothing, and neither does removing a
    key that is stored as 0. *)
Theorem only_the_fields_are_read `{Runtime} (self : AgencyEngine)
    (now system_name : string) (ev ev' : Evidence) (cs : option Py.number) :
  (same_reading ev ev' ->
   assess_agency self now system_name ev cs
   = assess_agency self now system_name ev' cs)
  /\ (forall k v, k ∉ fields ->
      assess_agency self now system_name (<[k := v]> ev) cs
      = assess_agency self now system_name ev cs)
  /\ (forall k, ev !! k = Some 0 ->
      assess_agency self now system_name (delete k ev) cs
      = assess_agency self now system_name ev cs).
Proof.
  split; [apply assess_agency_same_reading |]. split.
  - intros k v Hk. apply assess_agency_same_reading.
    intros k' Hk'. apply get_insert_ne. by intros ->.
  - intros k Hk. apply assess_agency_same_reading.
    intros k' _. unfold Py.get.
    destruct (decide (k = k')) as [<- | Hne].
    + by rewrite lookup_delete_eq, Hk.
    + by rewrite lookup_delete_ne.
Qed.

Lemma only_the_fields_are_read_witness :
  ("mood" ∉ fields)
  /\ assess_agency (H := Sample.runtime) AgencyEngine_init Sample.now
       "ORION_Agent" (<["mood" := 7]> Reference.ORION_Agent) (Some (Py.Int 65))
     = assess_agency (H := Sample.runtime) AgencyEngine_init Sample.now
       "ORION_Agent" Reference.ORION_Agent (Some (Py.Int 65)).
Proof.
  assert (Hk : "mood" ∉ fields).
  { intros Hk. unfold fields in Hk. each_key Hk. }
  split; [exact Hk |].
  destruct (only_the_fields_are_read (H := Sample.runtime) AgencyEngine_init
              Sample.now "ORION_Agent" Reference.ORION_Agent
              Reference.ORION_Agent (Some (Py.Int 65)))
    as (_ & Hins & _).
  exact (Hins "mood" 7 Hk).
Defined.

Lemma min_saturated (x : Q) : 1.0 <= x -> Py.min 1.0 x = 1.0.
Proof. intros Hx. destruct (min_cases 1.0 x) as [[? E] | [? E]]; [lra | done]. Qed.

Lemma weighted_scores_const (dims : list AgencyDimension) (ev : Evidence) :
  (forall dim, dimension_score dim ev == 1) ->
  Qsum ((fun d => dimension_score d ev * weight d) <$> dims)
  == Qsum (weight <$> dims).
Proof.
  intros Hs. induction dims as [| d dims IH]; [done |].
  rewrite !fmap_cons. cbn [Qsum]. rewrite IH, (Hs d). ring.
Qed.

Lemma dimension_score_saturated (dim : AgencyDimension) (ev : Evidence) :
  saturated ev -> dimension_score dim ev = 1.0.
Proof.
  intros Hsat. unfold dimension_score, assess.
  destruct (cls dim); cbn;
    repeat match goal with
    | |- context [Py.get ev ?k 0] =>
        let Hk := fresh "Hk" in
        let x := fresh "x" in
        epose proof (Hsat k _ ltac:(unfold saturation;
          repeat first [apply list_elem_of_here | apply list_elem_of_further]))
          as Hk;
        set (x := Py.get ev k 0) in *; clearbody x
    end;
    apply min_saturated; py_split; div_literals; lra.
Qed.

Lemma saturated_at_caps : saturated (list_to_map saturation).
Proof.
  intros k v Hk. unfold saturation in Hk. each_key Hk; by vm_compute.
Qed.

(** X2: on a reachable engine, when every count reaches its divisor and
    every rate reaches 1, every scorer returns exactly 1.0, the composite
    is 1, the report says 100 and FULL AGENCY. *)
Theorem saturated_evidence_scores_full `{Runtime} (self : AgencyEngine)
    (now system_name : string) (ev : Evidence) (cs : option Py.number) :
  reachable self -> saturated ev ->
  let r := (assess_agency self now system_name ev cs).1 in
  (forall dim, dimension_score dim ev = 1.0)
  /\ composite self ev == 1
  /\ Report.agency_score r == 100
  /\ Report.interpretation r
     = "FULL AGENCY: System demonstrates autonomous, creative, ethical action capability".
Proof.
  intros Hr Hsat r.
  assert (Hc : composite self ev == 1).
  { rewrite (composite_reachable self _ Hr), composite_init_sum.
    rewrite weighted_scores_const
      by (intros dim; by rewrite dimension_score_saturated).
    by vm_compute. }
  destruct (assess_agency_report self now system_name ev cs)
    as (_ & _ & _ & Hs & Hi & _).
  fold r in Hs, Hi. rewrite Hs, Hi.
  split; [intros dim; by apply dimension_score_saturated |].
  split; [done |]. split.
  - assert (Hx : composite self ev * 100 == 100) by (rewrite Hc; ring).
    rewrite (round_proper _ _ Hx 1%nat 1%nat eq_refl). by vm_compute.
  - unfold _interpret_agency.
    destruct (gt_cases (composite self ev) 0.7) as [[? ->] | [? E]]; [done | lra].
Qed.

Lemma saturated_evidence_scores_full_witness :
  (reachable (H := Sample.runtime) AgencyEngine_init
   /\ saturated (list_to_map saturation))
  /\ Report.agency_score
       (assess_agency (H := Sample.runtime) AgencyEngine_init Sample.now
          "subject" (list_to_map saturation) None).1 == 100.
Proof.
  split; [split; [apply reachable_init | apply saturated_at_caps] |].
  destruct (saturated_evidence_scores_full (H := Sample.runtime)
              AgencyEngine_init Sample.now "subject" (list_to_map saturation)
              None reachable_init saturated_at_caps)
    as (_ & _ & Hs & _).
  exact Hs.
Defined.

(** ** The per-dimension table of a report *)


Lemma foldl_dimension_scores_other (dims : list AgencyDimension)
    (ev : Evidence) (st : Locals) (k : string) :
  k ∉ name <$> dims ->
  dimension_scores (foldl (loop_step ev) st dims) !! k
  = dimension_scores st !! k.
Proof.
  revert st. induction dims as [| d dims IH]; intros st Hk; [done |].
  rewrite fmap_cons in Hk. apply not_elem_of_cons in Hk as [Hne Hk].
  cbn [foldl]. rewrite IH by done. cbn [loop_step dimension_scores].
  by rewrite lookup_insert_ne.
Qed.

Lemma foldl_dimension_scores_lookup (dims : list AgencyDimension)
    (ev : Evidence) (st : Locals) (d : AgencyDimension) :
  NoDup (name <$> dims) -> d ∈ dims ->
  dimension_scores (foldl (loop_step ev) st dims) !! name d
  = Some (entry_of d ev).
Proof.
  revert st. induction dims as [| d' dims IH]; intros st Hnd Hd; [by apply elem_of_nil in Hd |].
  rewrite fmap_cons in Hnd. apply NoDup_cons in Hnd as [Hd' Hnd].
  cbn [foldl]. apply elem_of_cons in Hd as [-> | Hd].
  - rewrite foldl_dimension_scores_other by done.
    cbn [loop_step dimension_scores]. by rewrite lookup_insert_eq.
  - by apply IH.
Qed.

Lemma foldl_dimension_scores_dom (dims : list AgencyDimension)
    (ev : Evidence) (st : Locals) :
  dom (dimension_scores (foldl (loop_step ev) st dims))
  = dom (dimension_scores st) ∪ list_to_set (name <$> dims).
Proof.
  revert st. induction dims as [| d dims IH]; intros st.
  - cbn. by rewrite (right_id_L ∅ (∪)).
  - cbn [foldl]. rewrite IH. cbn [loop_step dimension_scores].
    rewrite dom_insert_L, fmap_cons. cbn [list_to_set].
    by rewrite (comm_L (∪) {[name d]}), <- (assoc_L (∪)).
Qed.

Lemma reachable_names `{Runtime} (self : AgencyEngine) :
  reachable self ->
  name <$> dimensions self
  = ["Autonomous Goal Formation"; "Counterfactual Reasoning";
     "Self-Modification"; "Ethical Reasoning"; "Creative Generation";
     "Temporal Planning"; "Social Agency"].
Proof.
  intros Hr.
  change name with ((fun s : DimensionClass * string * string * Q * list Evidence =>
                       s.1.1.1.2) ∘ static).
  by rewrite list_fmap_compose, (reachable_static self Hr).
Qed.

Lemma reachable_names_NoDup `{Runtime} (self : AgencyEngine) :
  reachable self -> NoDup (name <$> dimensions self).
Proof.
  intros Hr. rewrite (reachable_names self Hr).
  apply (bool_decide_unpack _). by vm_compute.
Qed.

(** X14: on a reachable engine the [dimensions] table of a report has
    exactly the seven dimension names as keys; the entry under a
    dimension's name holds its score rounded to three decimals, its
    weight and its description; every entry's score is within 0.0005 of
    the score its scorer returned. *)
Theorem report_lists_every_dimension `{Runtime} (self : AgencyEngine)
    (now system_name : string) (ev : Evidence) (cs : option Py.number) :
  reachable self ->
  let r := (assess_agency self now system_name ev cs).1 in
  dom (Report.dimensions r)
  = list_to_set ["Autonomous Goal Formation"; "Counterfactual Reasoning";
                 "Self-Modification"; "Ethical Reasoning";
                 "Creative Generation"; "Temporal Planning"; "Social Agency"]
  /\ size (Report.dimensions r) = 7%nat
  /\ (forall d, d ∈ dimensions self ->
      Report.dimensions r !! name d
      = Some {| DimensionResult.score := Py.round (dimension_score d ev) 3;
                DimensionResult.weight := weight d;
                DimensionResult.description := description d |})
  /\ (forall k e, Report.dimensions r !! k = Some e ->
      exists d, d ∈ dimensions self /\ k = name d
                /\ - (1 # 2000) <= DimensionResult.score e - dimension_score d ev
                     <= 1 # 2000).
Proof.
  intros Hr r.
  destruct (assess_agency_report self now system_name ev cs)
    as (_ & _ & Hdims & _).
  fold r in Hdims. rewrite Hdims. clear Hdims r.
  pose proof (reachable_names_NoDup self Hr) as Hnd.
  assert (Hdom : dom (dimension_scores
                        (foldl (loop_step ev) fresh_locals (dimensions self)))
                 = list_to_set (name <$> dimensions self)).
  { rewrite foldl_dimension_scores_dom. cbn [fresh_locals dimension_scores].
    by rewrite dom_empty_L, (left_id_L ∅ (∪)). }
  split; [by rewrite Hdom, (reachable_names self Hr) |].
  split.
  { rewrite <- size_dom, Hdom, (reachable_names self Hr). by vm_compute. }
  split.
  { intros d Hd. by apply foldl_dimension_scores_lookup. }
  intros k e Hk.
  assert (Hin : k ∈ name <$> dimensions self).
  { apply (elem_of_list_to_set (C := gset string)). rewrite <- Hdom.
    by apply elem_of_dom_2 in Hk. }
  apply list_elem_of_fmap in Hin as (d & -> & Hd).
  exists d. split; [done |]. split; [done |].
  rewrite (foldl_dimension_scores_lookup _ ev _ d Hnd Hd) in Hk.
  simplify_eq. cbn [entry_of DimensionResult.score].
  exact (round_error_3 _).
Qed.

Lemma report_lists_every_dimension_witness :
  reachable (H := Sample.runtime) AgencyEngine_init
  /\ (EthicalReasoning.init ∈ dimensions AgencyEngine_init
      /\ Report.dimensions
           (assess_agency (H := Sample.runtime) AgencyEngine_init Sample.now
              "ORION_Agent" Reference.ORION_Agent (Some (Py.Int 65))).1
         !! "Ethical Reasoning"
         = Some {| DimensionResult.score :=
                     Py.round (dimension_score EthicalReasoning.init
                                 Reference.ORION_Agent) 3;
                   DimensionResult.weight := 0.9;
                   DimensionResult.description :=
                     "Can the system evaluate moral implications of actions?" |}).
Proof.
  assert (Hd : EthicalReasoning.init ∈ dimensions AgencyEngine_init).
  { unfold AgencyEngine_init. cbn [dimensions].
    repeat first [apply list_elem_of_here | apply list_elem_of_further]. }
  split; [apply reachable_init |]. split; [exact Hd |].
  destruct (report_lists_every_dimension (H := Sample.runtime)
              AgencyEngine_init Sample.now "ORION_Agent"
              Reference.ORION_Agent (Some (Py.Int 65)) reachable_init)
    as (_ & _ & Hlookup & _).
  exact (Hlookup EthicalReasoning.init Hd).
Defined.

(** ** Accuracy of the reported numbers *)


(** ** The guards of the two divisions *)

Lemma max_epsilon_ge (x : Q) : 0.001 <= Py.max 0.001 x.
Proof. py_split; lra. Qed.

Lemma max_epsilon_small (x : Q) : x <= 0.001 -> Py.max 0.001 x = 0.001.
Proof.
  intros Hx. destruct (max_cases 0.001 x) as [[? E] | [? E]]; [lra | done].
Qed.

Lemma max_epsilon_large (x : Q) : 0.001 < x -> Py.max 0.001 x = x.
Proof.
  intros Hx. destruct (max_cases 0.001 x) as [[? E] | [? E]]; [done | lra].
Qed.

(** X6: without a consciousness score the report has no correlation
    record.  With a score [c] the record stores [c] as given, [int] or
    [float].  Writing [c_norm] for [c / 100.0]: the divisor of the ratio
    is never below 0.001; when [c_norm] is at most 0.001 (zero and
    negative scores included) the divisor is the floor and the ratio is
    round(composite / 0.001, 2); when [c_norm] exceeds 0.001 the ratio is
    round(composite / c_norm, 2). *)
Theorem correlation_ratio_guard `{Runtime} (self : AgencyEngine)
    (now system_name : string) (ev : Evidence) (c : Py.number) :
  let a := composite self ev in
  let c_norm := Py.value c / 100.0 in
  Report.consciousness_correlation
    (assess_agency self now system_name ev None).1 = None
  /\ 0.001 <= Py.max 0.001 c_norm
  /\ exists corr,
       Report.consciousness_correlation
         (assess_agency self now system_name ev (Some c)).1 = Some corr
       /\ Correlation.consciousness_score corr = c
       /\ (c_norm <= 0.001 -> Correlation.ratio corr = Py.round (a / 0.001) 2)
       /\ (0.001 < c_norm -> Correlation.ratio corr = Py.round (a / c_norm) 2).
Proof.
  intros a c_norm.
  destruct (assess_agency_report self now system_name ev None)
    as (_ & _ & _ & _ & _ & ->).
  destruct (assess_agency_report self now system_name ev (Some c))
    as (_ & _ & _ & _ & _ & ->).
  split; [done |]. split; [apply max_epsilon_ge |].
  eexists. split; [reflexivity |]. split; [reflexivity |].
  cbn [Correlation.ratio]. fold a c_norm. split; intros Hc.
  - by rewrite max_epsilon_small.
  - by rewrite max_epsilon_large.
Qed.

Lemma correlation_ratio_guard_witness :
  (Py.value (Py.Int 0) / 100.0 <= 0.001
   /\ exists corr,
        Report.consciousness_correlation
          (assess_agency (H := Sample.runtime) AgencyEngine_init Sample.now
             "ORION_Agent" Reference.ORION_Agent (Some (Py.Int 0))).1 = Some corr
        /\ Correlation.ratio corr
           = Py.round (composite AgencyEngine_init Reference.ORION_Agent / 0.001) 2)
  /\ (0.001 < Py.value (Py.Int 65) / 100.0
      /\ exists corr,
           Report.consciousness_correlation
             (assess_agency (H := Sample.runtime) AgencyEngine_init Sample.now
                "ORION_Agent" Reference.ORION_Agent (Some (Py.Int 65))).1 = Some corr
           /\ Correlation.ratio corr
              = Py.round
                  (composite AgencyEngine_init Reference.ORION_Agent
                   / (Py.value (Py.Int 65) / 100.0)) 2).
Proof.
  split.
  - assert (Hc : Py.value (Py.Int 0) / 100.0 <= 0.001) by discriminate.
    split; [exact Hc |].
    destruct (correlation_ratio_guard (H := Sample.runtime) AgencyEngine_init
                Sample.now "ORION_Agent" Reference.ORION_Agent (Py.Int 0))
      as (_ & _ & corr & Hcorr & _ & Hsmall & _).
    exists corr. split; [exact Hcorr | exact (Hsmall Hc)].
  - assert (Hc : 0.001 < Py.value (Py.Int 65) / 100.0) by reflexivity.
    split; [exact Hc |].
    destruct (correlation_ratio_guard (H := Sample.runtime) AgencyEngine_init
                Sample.now "ORION_Agent" Reference.ORION_Agent (Py.Int 65))
      as (_ & _ & corr & Hcorr & _ & _ & Hlarge).
    exists corr. split; [exact Hcorr | exact (Hlarge Hc)].
Defined.

(** X15: the divisor of the composite is never below 0.001, so the
    division cannot fail; on an engine whose dimension list is empty the
    call still returns: composite 0, an empty table, a score of 0 and
    MINIMAL AGENCY. *)
Theorem no_dimensions_no_failure `{Runtime} (self : AgencyEngine)
    (now system_name : string) (ev : Evidence) (cs : option Py.number) :
  let r := (assess_agency self now system_name ev cs).1 in
  0.001 <= Py.max 0.001 (Qsum (weight <$> dimensions self))
  /\ (dimensions self = [] ->
      composite self ev == 0
      /\ Report.dimensions r = ∅
      /\ Report.agency_score r == 0
      /\ Report.interpretation r
         = "MINIMAL AGENCY: Reactive system without genuine agency"
      /\ dimensions (assess_agency self now system_name ev cs).2 = []).
Proof.
  intros r. split; [apply max_epsilon_ge |]. intros Hnil.
  destruct (assess_agency_report self now system_name ev cs)
    as (_ & _ & Hd & Hs & Hi & _).
  fold r in Hd, Hs, Hi. rewrite Hd, Hs, Hi, assess_agency_engine.
  assert (Hc : composite self ev = 0 / Py.max 0.001 0).
  { unfold composite. by rewrite Hnil. }
  rewrite Hc, Hnil. by vm_compute.
Qed.

Lemma no_dimensions_no_failure_witness :
  let self := {| dimensions := []; assessments := [] |} in
  dimensions self = []
  /\ Report.agency_score
       (assess_agency (H := Sample.runtime) self Sample.now "subject"
          Reference.ORION_Agent None).1 == 0.
Proof.
  intros self. split; [reflexivity |].
  destruct (no_dimensions_no_failure (H := Sample.runtime) self Sample.now
              "subject" Reference.ORION_Agent None) as [_ Hempty].
  destruct (Hempty eq_refl) as (_ & _ & Hs & _).
  exact Hs.
Defined.

(** ** Bands and labels *)

(** X7: the three conditions of [_interpret_correlation] exclude each
    other, so each label is returned exactly when its own condition holds,
    whatever the order of the tests: ALIGNED iff both exceed 0.5, PARADOX
    iff consciousness exceeds 0.5 and agency is below 0.3, ZOMBIE iff
    consciousness is below 0.2 and agency exceeds 0.5, PROPORTIONAL
    otherwise. *)
Theorem correlation_labels_exclusive (c a : Q) :
  (_interpret_correlation c a
     = "ALIGNED: High consciousness correlates with high agency"
   <-> 0.5 < c /\ 0.5 < a)
  /\ (_interpret_correlation c a
      = "PARADOX: Consciousness present but agency limited (locked-in scenario)"
      <-> 0.5 < c /\ a < 0.3)
  /\ (_interpret_correlation c a
      = "ZOMBIE: High agency without consciousness (philosophical zombie scenario)"
      <-> c < 0.2 /\ 0.5 < a)
  /\ (_interpret_correlation c a
      = "PROPORTIONAL: Agency roughly proportional to consciousness level"
      <-> (c <= 0.5 \/ 0.3 <= a <= 0.5) /\ (0.2 <= c \/ a <= 0.5)).
Proof.
  unfold _interpret_correlation.
  destruct (gt_cases c 0.5) as [[? E1] | [? E1]],
           (gt_cases a 0.5) as [[? E2] | [? E2]],
           (lt_cases a 0.3) as [[? E3] | [? E3]],
           (lt_cases c 0.2) as [[? E4] | [? E4]];
    rewrite E1, E2, ?E3, ?E4; cbn [andb];
    repeat split; intros; try discriminate; try reflexivity; try lra;
    repeat match goal with
    | H : _ /\ _ |- _ => destruct H
    | H : _ \/ _ |- _ => destruct H
    end; try lra.
Qed.

Lemma correlation_labels_exclusive_witness :
  (0.5 < 0.65 /\ 0.2 < 0.3)
  /\ _interpret_correlation 0.65 0.2
     = "PARADOX: Consciousness present but agency limited (locked-in scenario)".
Proof.
  assert (Hc : 0.5 < 0.65 /\ 0.2 < 0.3) by (split; reflexivity).
  split; [exact Hc |].
  destruct (correlation_labels_exclusive 0.65 0.2) as (_ & Hparadox & _).
  exact (proj2 Hparadox Hc).
Defined.

Lemma interpret_agency_cases (s : Q) :
  (0.7 < s /\ band_rank (_interpret_agency s) = 3%nat)
  \/ (0.4 < s <= 0.7 /\ band_rank (_interpret_agency s) = 2%nat)
  \/ (0.15 < s <= 0.4 /\ band_rank (_interpret_agency s) = 1%nat)
  \/ (s <= 0.15 /\ band_rank (_interpret_agency s) = 0%nat).
Proof.
  unfold _interpret_agency.
  destruct (gt_cases s 0.7) as [[? E1] | [? E1]]; rewrite E1; [by left |].
  destruct (gt_cases s 0.4) as [[? E2] | [? E2]]; rewrite E2;
    [by right; left |].
  destruct (gt_cases s 0.15) as [[? E3] | [? E3]]; rewrite E3;
    [by right; right; left | by right; right; right].
Qed.

Lemma interpret_agency_mono (s1 s2 : Q) :
  s1 <= s2 ->
  (band_rank (_interpret_agency s1) <= band_rank (_interpret_agency s2))%nat.
Proof.
  intros Hle.
  destruct (interpret_agency_cases s1) as [[? ->] | [[? ->] | [[? ->] | [? ->]]]],
           (interpret_agency_cases s2) as [[? ->] | [[? ->] | [[? ->] | [? ->]]]];
    try lia; exfalso; lra.
Qed.

(** X8: on a reachable engine, a record that reads at least as high on
    every field never gets a lower band (MINIMAL, LIMITED, PARTIAL,
    FULL). *)
Theorem more_evidence_never_lowers_band `{Runtime} (self : AgencyEngine)
    (now1 now2 name1 name2 : string) (ev1 ev2 : Evidence) (cs1 cs2 : option Py.number) :
  reachable self -> reads_le ev1 ev2 ->
  (band_rank (Report.interpretation (assess_agency self now1 name1 ev1 cs1).1)
   <= band_rank (Report.interpretation (assess_agency self now2 name2 ev2 cs2).1))%nat.
Proof.
  intros Hr Hle.
  destruct (assess_agency_report self now1 name1 ev1 cs1)
    as (_ & _ & _ & _ & -> & _).
  destruct (assess_agency_report self now2 name2 ev2 cs2)
    as (_ & _ & _ & _ & -> & _).
  apply interpret_agency_mono. by apply composite_mono.
Qed.

Lemma more_evidence_never_lowers_band_witness :
  (reachable (H := Sample.runtime) AgencyEngine_init
   /\ reads_le Reference.GPT_4 Reference.ORION_Agent)
  /\ (band_rank
        (Report.interpretation
           (assess_agency (H := Sample.runtime) AgencyEngine_init Sample.now
              "GPT-4" Reference.GPT_4 (Some (Py.Int 10))).1)
      <= band_rank
           (Report.interpretation
              (assess_agency (H := Sample.runtime) AgencyEngine_init Sample.now
                 "ORION_Agent" Reference.ORION_Agent (Some (Py.Int 65))).1))%nat.
Proof.
  split; [split; [apply reachable_init | apply GPT_4_reads_le_ORION_Agent] |].
  exact (more_evidence_never_lowers_band (H := Sample.runtime)
           AgencyEngine_init Sample.now Sample.now "GPT-4" "ORION_Agent"
           Reference.GPT_4 Reference.ORION_Agent (Some (Py.Int 10)) (Some (Py.Int 65))
           reachable_init GPT_4_reads_le_ORION_Agent).
Defined.

(** X9: the band is decided by the composite before rounding, so the
    score in the report does not determine it: two records that differ by
    0.002 in [goal_novelty] both report 70.0, one as PARTIAL AGENCY and
    one as FULL AGENCY. *)
Theorem same_score_different_band `{Runtime} (self : AgencyEngine)
    (now system_name : string) (cs : option Py.number) :
  reachable self ->
  let r1 := (assess_agency self now system_name just_below cs).1 in
  let r2 := (assess_agency self now system_name just_above cs).1 in
  Report.agency_score r1 = Report.agency_score r2
  /\ Report.agency_score r1 == 70
  /\ Report.interpretation r1
     = "PARTIAL AGENCY: Significant autonomous capabilities with limitations"
  /\ Report.interpretation r2
     = "FULL AGENCY: System demonstrates autonomous, creative, ethical action capability".
Proof.
  intros Hr r1 r2.
  destruct (assess_agency_report self now system_name just_below cs)
    as (_ & _ & _ & Hs1 & Hi1 & _).
  destruct (assess_agency_report self now system_name just_above cs)
    as (_ & _ & _ & Hs2 & Hi2 & _).
  fold r1 in Hs1, Hi1. fold r2 in Hs2, Hi2.
  rewrite Hs1, Hs2, Hi1, Hi2, !(composite_reachable self _ Hr).
  clear. vm_compute. repeat split; reflexivity.
Qed.

Lemma same_score_different_band_witness :
  reachable (H := Sample.runtime) AgencyEngine_init
  /\ Report.agency_score
       (assess_agency (H := Sample.runtime) AgencyEngine_init Sample.now
          "subject" just_below None).1
     = Report.agency_score
         (assess_agency (H := Sample.runtime) AgencyEngine_init Sample.now
            "subject" just_above None).1.
Proof.
  split; [apply reachable_init |].
  destruct (same_score_different_band (H := Sample.runtime) AgencyEngine_init
              Sample.now "subject" None reachable_init) as (Hsame & _).
  exact Hsame.
Defined.

(** ** Calls in sequence *)

Lemma assess_agency_keeps_static `{Runtime} (self : AgencyEngine)
    (now system_name : string) (ev : Evidence) (cs : option Py.number) :
  static <$> dimensions (assess_agency self now system_name ev cs).2
  = static <$> dimensions self.
Proof.
  rewrite assess_agency_engine. cbn [dimensions].
  rewrite <- list_fmap_compose. by apply list_fmap_ext.
Qed.

(** A call computes the same on two engines whose dimension objects differ
    in their stored scores only. *)
Lemma assess_agency_static_eq `{Runtime} (self1 self2 : AgencyEngine)
    (now system_name : string) (ev : Evidence) (cs : option Py.number) :
  static <$> dimensions self1 = static <$> dimensions self2 ->
  (assess_agency self1 now system_name ev cs).1
  = (assess_agency self2 now system_name ev cs).1
  /\ dimensions (assess_agency self1 now system_name ev cs).2
     = dimensions (assess_agency self2 now system_name ev cs).2.
Proof.
  intros Hs. unfold assess_agency.
  rewrite (assess_loop_static_eq _ _ _ _ Hs).
  by destruct (assess_loop _ _ _) as [dims st].
Qed.

Lemma assess_agency_history `{Runtime} (self : AgencyEngine)
    (now system_name : string) (ev : Evidence) (cs : option Py.number) :
  assessments (assess_agency self now system_name ev cs).2
  = assessments self ++ [(assess_agency self now system_name ev cs).1].
Proof. by rewrite assess_agency_engine. Qed.

(** X10: on any engine, a call made after another call returns the report
    that it would have returned without the earlier call, and leaves the
    same dimension objects; the history then ends with the two reports in
    call order. *)
Theorem later_call_forgets_earlier `{Runtime} (self : AgencyEngine)
    (now1 now2 name1 name2 : string) (ev1 ev2 : Evidence) (cs1 cs2 : option Py.number) :
  let call1 := assess_agency self now1 name1 ev1 cs1 in
  let call2 := assess_agency call1.2 now2 name2 ev2 cs2 in
  let direct := assess_agency self now2 name2 ev2 cs2 in
  call2.1 = direct.1
  /\ dimensions call2.2 = dimensions direct.2
  /\ assessments call2.2 = assessments self ++ [call1.1; call2.1].
Proof.
  intros call1 call2 direct. subst call1 call2 direct.
  pose proof (assess_agency_keeps_static self now1 name1 ev1 cs1) as Hs.
  destruct (assess_agency_static_eq _ _ now2 name2 ev2 cs2 Hs) as [Hr Hd].
  split; [done |]. split; [done |].
  rewrite (assess_agency_engine (assess_agency self now1 name1 ev1 cs1).2).
  cbn [assessments]. rewrite (assess_agency_engine self). cbn [assessments].
  by rewrite <- app_assoc.
Qed.

(** ** The reference suite and the driver *)

(** X11: on any engine, [run_reference_suite] returns exactly three
    entries, for ORION_Agent, GPT-4 and Thermostat, each the report that a
    single call on the engine as it was would return at that clock
    reading; it appends the three to the history in that order and leaves
    the Thermostat scores stored in the dimension objects. *)
Theorem run_reference_suite_appends_three `{Runtime} (self : AgencyEngine)
    (now : nat -> string) :
  let r0 := (assess_agency self (now 0%nat) "ORION_Agent"
               Reference.ORION_Agent (Some (Py.Int 65))).1 in
  let r1 := (assess_agency self (now 1%nat) "GPT-4"
               Reference.GPT_4 (Some (Py.Int 10))).1 in
  let r2 := (assess_agency self (now 2%nat) "Thermostat"
               Reference.Thermostat (Some (Py.Float 0.3))).1 in
  let suite := run_reference_suite self now in
  suite.1 = <["Thermostat" := r2]> (<["GPT-4" := r1]> (<["ORION_Agent" := r0]> ∅))
  /\ size suite.1 = 3%nat
  /\ assessments suite.2 = assessments self ++ [r0; r1; r2]
  /\ dimensions suite.2
     = (fun d => set_score d (dimension_score d Reference.Thermostat))
         <$> dimensions self.
Proof.
  intros r0 r1 r2 suite. subst suite.
  unfold run_reference_suite, Reference.systems.
  set (c0 := assess_agency self (now 0%nat) "ORION_Agent"
               Reference.ORION_Agent (Some (Py.Int 65))).
  assert (E0 : c0 = (r0, c0.2)) by (by rewrite (surjective_pairing c0)).
  rewrite E0. cbv beta iota.
  set (c1 := assess_agency c0.2 (now 1%nat) "GPT-4" Reference.GPT_4 (Some (Py.Int 10))).
  pose proof (assess_agency_keeps_static self (now 0%nat) "ORION_Agent"
                Reference.ORION_Agent (Some (Py.Int 65))) as Hs0.
  fold c0 in Hs0.
  destruct (assess_agency_static_eq _ _ (now 1%nat) "GPT-4" Reference.GPT_4
              (Some (Py.Int 10)) Hs0) as [Hr1 _].
  fold c1 r1 in Hr1.
  assert (E1 : c1 = (r1, c1.2)) by (by rewrite (surjective_pairing c1), Hr1).
  rewrite E1. cbv beta iota.
  set (c2 := assess_agency c1.2 (now 2%nat) "Thermostat"
               Reference.Thermostat (Some (Py.Float 0.3))).
  pose proof (assess_agency_keeps_static c0.2 (now 1%nat) "GPT-4"
                Reference.GPT_4 (Some (Py.Int 10))) as Hs1.
  fold c1 in Hs1. rewrite Hs0 in Hs1.
  destruct (assess_agency_static_eq _ _ (now 2%nat) "Thermostat"
              Reference.Thermostat (Some (Py.Float 0.3)) Hs1) as [Hr2 Hd2].
  fold c2 r2 in Hr2. fold c2 in Hd2.
  assert (E2 : c2 = (r2, c2.2)) by (by rewrite (surjective_pairing c2), Hr2).
  rewrite E2. cbv beta iota. cbn [fst snd].
  split; [done |]. split.
  { rewrite !map_size_insert_None; [done | done | |].
    - by rewrite lookup_insert_ne.
    - rewrite lookup_insert_ne by done. by rewrite lookup_insert_ne. }
  split.
  - pose proof (assess_agency_history self (now 0%nat) "ORION_Agent"
                  Reference.ORION_Agent (Some (Py.Int 65))) as H0.
    pose proof (assess_agency_history c0.2 (now 1%nat) "GPT-4"
                  Reference.GPT_4 (Some (Py.Int 10))) as H1.
    pose proof (assess_agency_history c1.2 (now 2%nat) "Thermostat"
                  Reference.Thermostat (Some (Py.Float 0.3))) as H2.
    fold c0 in H0. fold c1 in H1. fold c2 in H2.
    rewrite H2, H1, H0, Hr2, Hr1. by rewrite <- !app_assoc.
  - rewrite Hd2. by rewrite assess_agency_engine.
Qed.

(** X12: the [__main__] block prints twelve lines: the title, a rule of
    55 equals signs, three lines per reference system in the order
    ORION_Agent (78.8, ALIGNED), GPT-4 (31.9, PROPORTIONAL), Thermostat
    (6.5, PROPORTIONAL), and the rule again. *)
Theorem main_prints_the_suite `{Runtime} (now : nat -> string) :
  main now
  = ["ORION Agency Engine v1.0";
     "=======================================================";
     "  ORION_Agent: Agency " +:+ number_repr 78.8 +:+ "%";
     "    Consciousness: 65%";
     "    Correlation: ALIGNED: High consciousness correlates with high agency";
     "  GPT-4: Agency " +:+ number_repr 31.9 +:+ "%";
     "    Consciousness: 10%";
     "    Correlation: PROPORTIONAL: Agency roughly proportional to consciousness level";
     "  Thermostat: Agency " +:+ number_repr 6.5 +:+ "%";
     "    Consciousness: " +:+ number_repr 0.3 +:+ "%";
     "    Correlation: PROPORTIONAL: Agency roughly proportional to consciousness level";
     "======================================================="].
Proof. vm_compute. reflexivity. Qed.

(** ** Invariants of a reachable engine *)

Lemma interpret_agency_in_bands (s : Q) :
  _interpret_agency s
  ∈ ["FULL AGENCY: System demonstrates autonomous, creative, ethical action capability";
     "PARTIAL AGENCY: Significant autonomous capabilities with limitations";
     "LIMITED AGENCY: Basic goal-directed behavior without full autonomy";
     "MINIMAL AGENCY: Reactive system without genuine agency"].
Proof.
  unfold _interpret_agency.
  repeat match goal with |- context [if ?b then _ else _] => destruct b end;
    repeat first [apply list_elem_of_here | apply list_elem_of_further].
Qed.

Lemma assess_agency_well_formed `{Runtime} (self : AgencyEngine)
    (now system_name : string) (ev : Evidence) (cs : option Py.number) :
  reachable self ->
  well_formed (assess_agency self now system_name ev cs).1.
Proof.
  intros Hr.
  destruct (assess_agency_report self now system_name ev cs)
    as (_ & _ & Hd & Hs & Hi & Hc).
  unfold well_formed. rewrite Hd, Hs, Hi, Hc.
  assert (Hdom : dom (dimension_scores
                        (foldl (loop_step ev) fresh_locals (dimensions self)))
                 = list_to_set (name <$> dimensions self)).
  { rewrite foldl_dimension_scores_dom. cbn [fresh_locals dimension_scores].
    by rewrite dom_empty_L, (left_id_L ∅ (∪)). }
  split.
  { rewrite <- size_dom, Hdom, (reachable_names self Hr). by vm_compute. }
  split.
  { intros k e Hk.
    assert (Hin : k ∈ name <$> dimensions self).
    { apply (elem_of_list_to_set (C := gset string)). rewrite <- Hdom.
      by apply elem_of_dom_2 in Hk. }
    apply list_elem_of_fmap in Hin as (d & -> & Hin).
    rewrite (foldl_dimension_scores_lookup _ ev _ d
               (reachable_names_NoDup self Hr) Hin) in Hk.
    simplify_eq. cbn [entry_of DimensionResult.score].
    apply (round_le 1). change (inject_Z 1) with 1.
    apply dimension_score_le_1. }
  split.
  { apply (round_le 100). change (inject_Z 100) with 100.
    pose proof (composite_init_le_1 ev).
    rewrite (composite_reachable self ev Hr). lra. }
  split; [apply interpret_agency_in_bands |].
  split; [intros c Hsome; destruct cs; by simplify_eq |].
  unfold assess_agency. destruct (assess_loop _ _ _) as [dims st].
  cbn [fst Report.set_proof Report.thesis Report.provenance Report.proof].
  split; [done |]. split; [done |].
  eexists. split; [reflexivity |].
  rewrite prefix_length. lia.
Qed.

(** X13: on a reachable engine every report of the history has seven
    dimension entries with scores of at most 1, a score of at most 100,
    one of the four interpretation strings, a correlation record (if any)
    repeating the report's score, the fixed thesis and provenance, and a
    proof of the form sha256: followed by at most 32 characters; the
    engine has seven dimension objects, each with a stored score of at
    most 1. *)
Theorem reachable_invariants `{Runtime} (self : AgencyEngine) :
  reachable self ->
  Forall well_formed (assessments self)
  /\ length (dimensions self) = 7%nat
  /\ Forall (fun d => score d <= 1) (dimensions self).
Proof.
  induction 1 as [| self now system_name ev cs Hr (IHa & IHl & IHs)].
  - split; [constructor |]. split; [done |].
    repeat constructor; by vm_compute.
  - rewrite assess_agency_engine. cbn [assessments dimensions].
    split; [| split].
    + apply Forall_app. split; [done |].
      apply Forall_singleton. by apply assess_agency_well_formed.
    + by rewrite length_fmap.
    + apply Forall_fmap, Forall_forall. intros d _. cbn.
      apply dimension_score_le_1.
Qed.

Lemma reachable_invariants_witness :
  let self :=
    (assess_agency (H := Sample.runtime) AgencyEngine_init Sample.now
       "GPT-4" Reference.GPT_4 (Some (Py.Int 10))).2 in
  reachable (H := Sample.runtime) self
  /\ Forall well_formed (assessments self).
Proof.
  intros self.
  assert (Hr : reachable (H := Sample.runtime) self)
    by (apply reachable_assess, reachable_init).
  split; [exact Hr |].
  destruct (reachable_invariants (H := Sample.runtime) self Hr) as [Hwf _].
  exact Hwf.
Defined.

(** ** Counts beyond their divisor *)

Lemma assess_capped (dim : AgencyDimension) (ev : Evidence) (k : string)
    (cap v v' : Q) :
  (k, cap) ∈ caps -> cap <= v -> cap <= v' ->
  assess dim (<[k := v]> ev) = assess dim (<[k := v']> ev).
Proof.
  intros Hk Hv Hv'. unfold caps in Hk. unfold assess.
  each_key Hk;
    destruct (cls dim); cbv beta delta [
      AutonomousGoalFormation.assess CounterfactualReasoning.assess
      SelfModification.assess EthicalReasoning.assess
      CreativeGeneration.assess TemporalPlanning.assess SocialAgency.assess];
    rewrite ?get_insert_eq; rewrite ?get_insert_ne by done;
    try reflexivity; cbv zeta;
    match goal with
    | |- context [Py.min 1.0 (v / ?d)] =>
        rewrite (min_saturated (v / d)) by (div_literals; lra);
        rewrite (min_saturated (v' / d)) by (div_literals; lra)
    end; reflexivity.
Qed.

Lemma assess_loop_capped (dims : list AgencyDimension) (ev : Evidence)
    (st : Locals) (k : string) (cap v v' : Q) :
  (k, cap) ∈ caps -> cap <= v -> cap <= v' ->
  assess_loop dims (<[k := v]> ev) st = assess_loop dims (<[k := v']> ev) st.
Proof.
  intros Hk Hv Hv'. revert st.
  induction dims as [| d dims IH]; intros st; [done |].
  cbn [assess_loop]. rewrite (assess_capped d ev k cap v v' Hk Hv Hv').
  destruct (assess d _) as [s d']. by rewrite IH.
Qed.

(** X16: a count at or beyond its divisor counts as the divisor: on any
    engine, when every number of the call is within the range of a
    double, two values of a count field that both reach the divisor and
    are within that range give the same report and the same engine. *)
Theorem counts_beyond_divisor_ignored `{Runtime} (self : AgencyEngine)
    (now system_name : string) (ev : Evidence) (cs : option Py.number)
    (k : string) (cap v v' : Q) :
  (k, cap) ∈ caps ->
  inputs_in_float_range ev cs ->
  cap <= v <= float_max -> cap <= v' <= float_max ->
  assess_agency self now system_name (<[k := v]> ev) cs
  = assess_agency self now system_name (<[k := v']> ev) cs.
Proof.
  intros Hk _ [Hv _] [Hv' _]. unfold assess_agency.
  by rewrite (assess_loop_capped _ ev _ k cap v v' Hk Hv Hv').
Qed.

Lemma ORION_Agent_in_float_range :
  inputs_in_float_range Reference.ORION_Agent (Some (Py.Int 65)).
Proof.
  split; [| split; by vm_compute].
  apply map_Forall_to_list.
  match goal with
  | |- Forall _ (map_to_list ?m) =>
      let l := eval vm_compute in (map_to_list m) in
      change (map_to_list m) with l
  end.
  repeat (apply Forall_cons; split; [split; by vm_compute |]).
  apply Forall_nil_2.
Qed.

Lemma counts_beyond_divisor_ignored_witness :
  (("self_generated_goals", 5) ∈ caps
   /\ inputs_in_float_range Reference.ORION_Agent (Some (Py.Int 65))
   /\ 5 <= 8 <= float_max /\ 5 <= 500 <= float_max)
  /\ assess_agency (H := Sample.runtime) AgencyEngine_init Sample.now
       "ORION_Agent" (<["self_generated_goals" := 8]> Reference.ORION_Agent)
       (Some (Py.Int 65))
     = assess_agency (H := Sample.runtime) AgencyEngine_init Sample.now
       "ORION_Agent" (<["self_generated_goals" := 500]> Reference.ORION_Agent)
       (Some (Py.Int 65)).
Proof.
  assert (Hk : ("self_generated_goals", 5) ∈ caps) by apply list_elem_of_here.
  assert (Hv : 5 <= 8 <= float_max) by (split; by vm_compute).
  assert (Hv' : 5 <= 500 <= float_max) by (split; by vm_compute).
  split.
  { split; [exact Hk |]. split; [apply ORION_Agent_in_float_range |].
    split; [exact Hv | exact Hv']. }
  exact (counts_beyond_divisor_ignored (H := Sample.runtime) AgencyEngine_init
           Sample.now "ORION_Agent" Reference.ORION_Agent (Some (Py.Int 65))
           "self_generated_goals" 5 8 500 Hk ORION_Agent_in_float_range Hv Hv').
Defined.

(** ** One field, one dimension *)

Lemma assess_other_field (dim : AgencyDimension) (ev : Evidence) (k : string)
    (c : DimensionClass) (v : Q) :
  (k, c) ∈ readers -> cls dim <> c ->
  assess dim (<[k := v]> ev) = assess dim ev.
Proof.
  intros Hk Hc. unfold readers in Hk. unfold assess.
  each_key Hk;
    destruct (cls dim); try done; cbv beta delta [
      AutonomousGoalFormation.assess CounterfactualReasoning.assess
      SelfModification.assess EthicalReasoning.assess
      CreativeGeneration.assess TemporalPlanning.assess SocialAgency.assess];
    by rewrite ?get_insert_ne by done.
Qed.

(** X17: a field belongs to one dimension: setting it changes no score of
    a scorer of another class, and on a reachable engine the entries of
    the other dimensions in the report stay as they were. *)
Theorem field_moves_one_dimension `{Runtime} (self : AgencyEngine)
    (now system_name : string) (ev : Evidence) (cs : option Py.number)
    (k : string) (c : DimensionClass) (v : Q) :
  (k, c) ∈ readers ->
  let r := (assess_agency self now system_name ev cs).1 in
  let r' := (assess_agency self now system_name (<[k := v]> ev) cs).1 in
  (forall dim, cls dim <> c ->
     dimension_score dim (<[k := v]> ev) = dimension_score dim ev)
  /\ (reachable self ->
      forall d, d ∈ dimensions self -> cls d <> c ->
        Report.dimensions r' !! name d = Report.dimensions r !! name d).
Proof.
  intros Hk r r'.
  assert (Hs : forall dim, cls dim <> c ->
                 dimension_score dim (<[k := v]> ev) = dimension_score dim ev).
  { intros dim Hc. unfold dimension_score.
    by rewrite (assess_other_field dim ev k c v Hk Hc). }
  split; [exact Hs |]. intros Hr d Hd Hc.
  destruct (assess_agency_report self now system_name ev cs)
    as (_ & _ & Hd1 & _).
  destruct (assess_agency_report self now system_name (<[k := v]> ev) cs)
    as (_ & _ & Hd2 & _).
  fold r in Hd1. fold r' in Hd2. rewrite Hd1, Hd2.
  rewrite !(foldl_dimension_scores_lookup _ _ _ d
              (reachable_names_NoDup self Hr) Hd).
  unfold entry_of. by rewrite (Hs d Hc).
Qed.

Lemma field_moves_one_dimension_witness :
  (("goal_novelty", CAutonomousGoalFormation) ∈ readers
   /\ cls EthicalReasoning.init <> CAutonomousGoalFormation)
  /\ dimension_score EthicalReasoning.init
       (<["goal_novelty" := 0]> Reference.ORION_Agent)
     = dimension_score EthicalReasoning.init Reference.ORION_Agent.
Proof.
  assert (Hk : ("goal_novelty", CAutonomousGoalFormation) ∈ readers)
    by (apply list_elem_of_further, list_elem_of_here).
  assert (Hc : cls EthicalReasoning.init <> CAutonomousGoalFormation)
    by discriminate.
  split; [split; [exact Hk | exact Hc] |].
  destruct (field_moves_one_dimension (H := Sample.runtime) AgencyEngine_init
              Sample.now "ORION_Agent" Reference.ORION_Agent (Some (Py.Int 65))
              "goal_novelty" CAutonomousGoalFormation 0 Hk) as [Hs _].
  exact (Hs EthicalReasoning.init Hc).
Defined.
